(** * PR template analyzer: change extraction, template store, suggestions

    A shallow embedding of [src/git_tools.py], [src/templates.py] and
    [src/server.py], and the properties of the specification checked
    against it.

    Conventions of the embedding.
    - A Python [str] is a [string]; a character is a code point in
      0..255 (the [ascii] type).  [len] is [String.length].
    - A Python [int] is a [Z]; a length and a counter that starts at 0
      and is only incremented are [nat], injected with [Z.of_nat] where
      the code mixes them with an [int].
    - A dict with fixed keys is a record, a key that only some return
      statements set an [option] field; a dict used as a map is a
      [gmap], a set a [gset].
    - A raised exception is the [Raise] case of the [result] monad; a
      [try ... except Exception] block is a [match] on it.
    - The version-control tool is an oracle [git] from a working
      directory and an argument list to a completed process; the
      template directory is the finite map of its [*.md] files. *)

From Stdlib Require Import ZArith Ascii String List Bool Lia DecimalString.
From stdpp Require Import gmap strings list.

Local Open Scope Z_scope.

(** ** Python strings *)

Module Py.

Definition nl : ascii := ascii_of_nat 10.
Definition tab : ascii := ascii_of_nat 9.

Definition len (s : string) : nat := String.length s.

(** [str.isspace] on the code points below 256. *)
Definition is_space (c : ascii) : bool :=
  existsb (N.eqb (N_of_ascii c)) [9; 10; 11; 12; 13; 28; 29; 30; 31; 32; 133; 160]%N.

Fixpoint lstrip (s : string) : string :=
  match s with
  | EmptyString => EmptyString
  | String c s' => if is_space c then lstrip s' else s
  end.

Fixpoint rstrip (s : string) : string :=
  match s with
  | EmptyString => EmptyString
  | String c s' =>
      match rstrip s' with
      | EmptyString => if is_space c then EmptyString else String c EmptyString
      | r => String c r
      end
  end.

(** [s.strip()] *)
Definition strip (s : string) : string := rstrip (lstrip s).

(** [c.lower()] on the code points below 256: A-Z and the Latin-1
    capitals (0xC0-0xDE without the multiplication sign 0xD7). *)
Definition lower_char (c : ascii) : ascii :=
  let n := N_of_ascii c in
  if ((65 <=? n) && (n <=? 90))%N
     || ((192 <=? n) && (n <=? 222) && negb (n =? 215))%N
  then ascii_of_N (n + 32) else c.

Fixpoint lower (s : string) : string :=
  match s with
  | EmptyString => EmptyString
  | String c s' => String (lower_char c) (lower s')
  end.

(** [s.split(sep)] for a one-character separator: never an empty list. *)
Fixpoint split (sep : ascii) (s : string) : list string :=
  match s with
  | EmptyString => [EmptyString]
  | String c s' =>
      if Ascii.eqb c sep then EmptyString :: split sep s'
      else match split sep s' with
           | [] => [String c EmptyString]
           | h :: t => String c h :: t
           end
  end.

(** [sep.join(parts)] *)
Definition join (sep : string) (parts : list string) : string :=
  String.concat sep parts.

(** [needle in s] *)
Fixpoint contains (needle s : string) : bool :=
  String.prefix needle s
  || match s with
     | EmptyString => false
     | String _ s' => contains needle s'
     end.

(** [str(n)] for an [int]. *)
Definition str_int (n : Z) : string := NilZero.string_of_int (Z.to_int n).

(** [bool(s)]: a string is true when it is not empty. *)
Definition truthy (s : string) : bool :=
  match s with EmptyString => false | _ => true end.

(** [any(w in s for w in words)] *)
Definition any_in (words : list string) (s : string) : bool :=
  existsb (fun w => contains w s) words.

(** What a list of lines weighs in a text: each line and its
    newline. *)
Fixpoint weight (lines : list string) : Z :=
  match lines with
  | [] => 0
  | line :: rest => Z.of_nat (len line) + 1 + weight rest
  end.

(** Every character is white space. *)
Fixpoint all_space (s : string) : bool :=
  match s with
  | EmptyString => true
  | String c s' => is_space c && all_space s'
  end.

End Py.

(** ** Exceptions *)

Inductive exn : Type :=
| Exception (msg : string)
| IndexError (msg : string)
| TypeError (msg : string).

(** [str(e)] *)
Definition str_exn (e : exn) : string :=
  match e with Exception m | IndexError m | TypeError m => m end.

Inductive result (A : Type) : Type :=
| Ok (a : A)
| Raise (e : exn).
Arguments Ok {A} a.
Arguments Raise {A} e.

#[global] Instance result_ret : MRet result := fun _ a => Ok a.
#[global] Instance result_bind : MBind result := fun _ _ k r =>
  match r with Ok a => k a | Raise e => Raise e end.

(** ** git_tools.py *)

Module GitTools.

(** What [subprocess.run(..., capture_output=True, text=True)] hands
    back. *)
Record CompletedProcess : Type := {
  returncode : Z;
  stdout : string;
  stderr : string
}.

(** [_get_change_type]: [status[0]] raises on the empty string, the
    table lookup falls back to ['unknown']. *)
Definition status_map : list (ascii * string) :=
  [("A"%char, "added"); ("M"%char, "modified"); ("D"%char, "deleted");
   ("R"%char, "renamed"); ("C"%char, "copied"); ("T"%char, "type_changed")].

Fixpoint status_map_get (m : list (ascii * string)) (k : ascii) (default : string)
  : string :=
  match m with
  | [] => default
  | (k', v) :: m' => if Ascii.eqb k' k then v else status_map_get m' k default
  end.

Definition _get_change_type (status : string) : result string :=
  match status with
  | EmptyString => Raise (IndexError "string index out of range")
  | String c _ => Ok (status_map_get status_map c "unknown")
  end.

(** The change kinds of the data model. *)
Definition change_kinds : list string :=
  ["added"; "modified"; "deleted"; "renamed"; "copied"; "type_changed"; "unknown"].

(** The elision line of [_truncate_diff]. *)
Definition marker (remaining : Z) : string :=
  String Py.nl ("... [DIFF TRUNCATED - " +:+ Py.str_int remaining +:+ " more lines] ...").

(** The [for line in lines] loop of [_truncate_diff]; [total] is
    [len(lines)] of the whole diff. *)
Fixpoint truncate_loop (total : nat) (max_chars : Z) (lines truncated_lines : list string)
    (current_size : Z) : list string :=
  match lines with
  | [] => truncated_lines
  | line :: rest =>
      let line_size := Z.of_nat (Py.len line) + 1 in
      if current_size + line_size >? max_chars then
        truncated_lines
          ++ [marker (Z.of_nat total - Z.of_nat (length truncated_lines))]
      else
        truncate_loop total max_chars rest (truncated_lines ++ [line])
          (current_size + line_size)
  end.

Definition _truncate_diff (diff : string) (max_chars : Z) : string :=
  if Z.of_nat (Py.len diff) <=? max_chars then diff
  else
    let lines := Py.split Py.nl diff in
    Py.join (String Py.nl EmptyString)
      (truncate_loop (length lines) max_chars lines [] 0).

(** [os.path.dirname] (POSIX flavour): the part up to the last slash,
    with its trailing slashes removed unless it consists of slashes
    only. *)
Fixpoint dir_head (p : string) : option string :=
  match p with
  | EmptyString => None
  | String c p' =>
      match dir_head p' with
      | Some h => Some (String c h)
      | None => if Ascii.eqb c "/" then Some (String c EmptyString) else None
      end
  end.

Fixpoint all_sep (s : string) : bool :=
  match s with
  | EmptyString => true
  | String c s' => Ascii.eqb c "/" && all_sep s'
  end.

Fixpoint rstrip_sep (s : string) : string :=
  match s with
  | EmptyString => EmptyString
  | String c s' =>
      match rstrip_sep s' with
      | EmptyString => if Ascii.eqb c "/" then EmptyString else String c EmptyString
      | r => String c r
      end
  end.

Definition dirname (p : string) : string :=
  let head := default EmptyString (dir_head p) in
  if Py.truthy head && negb (all_sep head) then rstrip_sep head else head.

(** One entry of [file_changes]. *)
Record FileChange : Type := {
  status : string;
  filename : string;
  change_type : string
}.

(** A change whose kind is one of the enumerated ones. *)
Definition wf_change (c : FileChange) : Prop := In (change_type c) change_kinds.

(** The extension [_summarize_changes] files a change under, if any. *)
Definition has_extension (ext : string) (c : FileChange) : bool :=
  Py.contains "." (filename c)
  && String.eqb (List.last (Py.split "." (filename c)) EmptyString) ext.

(** The dict built by [_summarize_changes].  [directories] is the set
    the loop builds; the list the code returns in its place enumerates
    that set in an order that is not modelled, so that only membership
    in it is meaningful. *)
Record Summary : Type := {
  added : nat;
  modified : nat;
  deleted : nat;
  renamed : nat;
  file_types : gmap string nat;
  directories : gset string
}.

Definition empty_summary : Summary :=
  {| added := 0; modified := 0; deleted := 0; renamed := 0;
     file_types := ∅; directories := ∅ |}.

(** [if change_type in summary: summary[change_type] += 1].  The two
    keys that hold a dict and a set cannot be incremented. *)
Definition count_change_type (change_type : string) (s : Summary) : result Summary :=
  if String.eqb change_type "added" then
    Ok {| added := S (added s); modified := modified s; deleted := deleted s;
          renamed := renamed s; file_types := file_types s;
          directories := directories s |}
  else if String.eqb change_type "modified" then
    Ok {| added := added s; modified := S (modified s); deleted := deleted s;
          renamed := renamed s; file_types := file_types s;
          directories := directories s |}
  else if String.eqb change_type "deleted" then
    Ok {| added := added s; modified := modified s; deleted := S (deleted s);
          renamed := renamed s; file_types := file_types s;
          directories := directories s |}
  else if String.eqb change_type "renamed" then
    Ok {| added := added s; modified := modified s; deleted := deleted s;
          renamed := S (renamed s); file_types := file_types s;
          directories := directories s |}
  else if String.eqb change_type "file_types" then
    Raise (TypeError "unsupported operand type(s) for +=: 'dict' and 'int'")
  else if String.eqb change_type "directories" then
    Raise (TypeError "unsupported operand type(s) for +=: 'set' and 'int'")
  else Ok s.

(** What [n] further files of an extension do to its entry of
    [file_types]. *)
Definition bump (n : nat) (entry : option nat) : option nat :=
  if (n =? 0)%nat then entry else Some (default 0%nat entry + n)%nat.

(** [if '.' in filename: ext = filename.split('.')[-1]; ...] *)
Definition track_extension (filename : string) (s : Summary) : Summary :=
  if Py.contains "." filename then
    let ext := List.last (Py.split "." filename) EmptyString in
    {| added := added s; modified := modified s; deleted := deleted s;
       renamed := renamed s;
       file_types := <[ext := (default 0%nat (file_types s !! ext) + 1)%nat]> (file_types s);
       directories := directories s |}
  else s.

(** [directory = os.path.dirname(filename); if directory: ...] *)
Definition track_directory (filename : string) (s : Summary) : Summary :=
  let directory := dirname filename in
  if Py.truthy directory then
    {| added := added s; modified := modified s; deleted := deleted s;
       renamed := renamed s; file_types := file_types s;
       directories := {[directory]} ∪ directories s |}
  else s.

Fixpoint summarize_loop (file_changes : list FileChange) (summary : Summary)
  : result Summary :=
  match file_changes with
  | [] => Ok summary
  | change :: rest =>
      s1 ← count_change_type (change_type change) summary;
      summarize_loop rest
        (track_directory (filename change) (track_extension (filename change) s1))
  end.

Definition _summarize_changes (file_changes : list FileChange) : result Summary :=
  summarize_loop file_changes empty_summary.

(** The [for line in changed_files] loop of [get_file_changes]. *)
Fixpoint parse_changed_files (changed_files : list string) (file_changes : list FileChange)
  : result (list FileChange) :=
  match changed_files with
  | [] => Ok file_changes
  | line :: rest =>
      if Py.truthy (Py.strip line) then
        match Py.split Py.tab line with
        | status :: filename :: _ =>
            kind ← _get_change_type status;
            parse_changed_files rest
              (file_changes
                 ++ [{| status := status; filename := filename; change_type := kind |}])
        | _ => parse_changed_files rest file_changes
        end
      else parse_changed_files rest file_changes
  end.

(** The dict returned by [get_file_changes]; a key that one of the two
    return statements leaves out is [None]. *)
Record ChangeReport : Type := {
  error : option string;
  branch_comparison : string;
  total_files_changed : nat;
  file_changes : list FileChange;
  diff_stats : string;
  diff_content : string;
  truncated : bool;
  original_diff_size : option nat;
  change_summary : option Summary
}.

(** The keys of the dict, in insertion order. *)
Definition key_if {A} (field : option A) (key : string) : list string :=
  match field with Some _ => [key] | None => [] end.

Definition report_keys (r : ChangeReport) : list string :=
  key_if (error r) "error"
    ++ ["branch_comparison"; "total_files_changed"; "file_changes";
        "diff_stats"; "diff_content"; "truncated"]
    ++ key_if (original_diff_size r) "original_diff_size"
    ++ key_if (change_summary r) "change_summary".

(** Two reports have the same shape when they carry the same keys,
    the [error] annotation apart. *)
Definition same_shape (r1 r2 : ChangeReport) : Prop :=
  forall key : string,
    key <> "error" -> (In key (report_keys r1) <-> In key (report_keys r2)).

(** The three queries of [get_file_changes]. *)
Definition diff_commands (target_branch : string) : list (list string) :=
  [["git"; "diff"; "--name-status"; target_branch +:+ "...HEAD"];
   ["git"; "diff"; "--stat"; target_branch +:+ "...HEAD"];
   ["git"; "diff"; target_branch +:+ "...HEAD"]].

(** The query of [get_commit_messages]. *)
Definition log_command (target_branch : string) (limit : Z) : list string :=
  ["git"; "log"; target_branch +:+ "...HEAD"; "--pretty=format:%H|%s|%an|%ad";
   "--date=short"; "-" +:+ Py.str_int limit].

(** One entry of the list returned by [get_commit_messages]. *)
Inductive CommitEntry : Type :=
| Commit (hash message author date : string)
| CommitError (msg : string).

(** The dict returned by [get_branch_info]. *)
Record BranchInfo : Type := {
  current_branch : option string;
  remote_branches : list string;
  is_git_repo : bool;
  branch_error : option string
}.

(** The [for line in log_output.split('\n')] loop of
    [get_commit_messages]. *)
Fixpoint parse_log_lines (lines : list string) (commits : list CommitEntry)
  : list CommitEntry :=
  match lines with
  | [] => commits
  | line :: rest =>
      if Py.truthy (Py.strip line) then
        match Py.split "|" line with
        | p0 :: p1 :: p2 :: p3 :: _ =>
            parse_log_lines rest (commits ++ [Commit p0 p1 p2 p3])
        | _ => parse_log_lines rest commits
        end
      else parse_log_lines rest commits
  end.

(** What one line of the log contributes, in the words of the
    specification: a blank line and a line of fewer than four
    pipe-separated fields nothing, any other line the record of its
    first four fields. *)
Definition commit_of_line (line : string) : list CommitEntry :=
  if Py.all_space line then []
  else match Py.split "|" line with
       | p0 :: p1 :: p2 :: p3 :: _ => [Commit p0 p1 p2 p3]
       | _ => []
       end.

Record GitAnalyzer : Type := { repo_path : string }.

Section WithGit.

(** [subprocess.run(argv, cwd=...)], for the runs in which the process
    starts and its output decodes: an exit code and the two texts.  A
    run that raises by itself (no such directory, undecodable output)
    is outside the oracle. *)
Variable git : string -> list string -> CompletedProcess.

(** [check=True] turns a non-zero exit into [CalledProcessError],
    which is re-raised as a plain [Exception]. *)
Definition _run_git_command (self : GitAnalyzer) (command : list string)
  : result string :=
  let result := git (repo_path self) ("git" :: command) in
  if returncode result =? 0 then Ok (Py.strip (stdout result))
  else Raise (Exception ("Git command failed: " +:+ stderr result)).

Definition file_changes_body (self : GitAnalyzer) (target_branch : string)
    (max_tokens : Z) : result ChangeReport :=
  listing ← _run_git_command self
    ["diff"; "--name-status"; target_branch +:+ "...HEAD"];
  let changed_files := Py.split Py.nl listing in
  stats ← _run_git_command self ["diff"; "--stat"; target_branch +:+ "...HEAD"];
  full_diff ← _run_git_command self ["diff"; target_branch +:+ "...HEAD"];
  changes ← parse_changed_files changed_files [];
  let truncated_diff := _truncate_diff full_diff (max_tokens - 2000) in
  summary ← _summarize_changes changes;
  Ok {| error := None;
        branch_comparison := target_branch +:+ "...HEAD";
        total_files_changed := length changes;
        file_changes := changes;
        diff_stats := stats;
        diff_content := truncated_diff;
        truncated := (Py.len truncated_diff <? Py.len full_diff)%nat;
        original_diff_size := Some (Py.len full_diff);
        change_summary := Some summary |}.

Definition get_file_changes (self : GitAnalyzer) (target_branch : string)
    (max_tokens : Z) : ChangeReport :=
  match file_changes_body self target_branch max_tokens with
  | Ok report => report
  | Raise e =>
      {| error := Some (str_exn e);
         branch_comparison := target_branch +:+ "...HEAD";
         total_files_changed := 0;
         file_changes := [];
         diff_stats := EmptyString;
         diff_content := EmptyString;
         truncated := false;
         original_diff_size := None;
         change_summary := None |}
  end.

Definition get_commit_messages (self : GitAnalyzer) (target_branch : string)
    (limit : Z) : list CommitEntry :=
  match _run_git_command self
          ["log"; target_branch +:+ "...HEAD"; "--pretty=format:%H|%s|%an|%ad";
           "--date=short"; "-" +:+ Py.str_int limit] with
  | Ok log_output => parse_log_lines (Py.split Py.nl log_output) []
  | Raise e => [CommitError (str_exn e)]
  end.

Definition get_branch_info (self : GitAnalyzer) : BranchInfo :=
  match
    (branch ← _run_git_command self ["branch"; "--show-current"];
     remotes ← _run_git_command self ["branch"; "-r"];
     Ok (branch, Py.split Py.nl remotes))
  with
  | Ok (branch, remotes) =>
      {| current_branch := Some branch;
         remote_branches :=
           map Py.strip (filter (fun b => Py.truthy (Py.strip b) = true) remotes);
         is_git_repo := true;
         branch_error := None |}
  | Raise e =>
      {| current_branch := None;
         remote_branches := [];
         is_git_repo := false;
         branch_error := Some (str_exn e) |}
  end.

End WithGit.

End GitTools.

(** ** templates.py *)

Module Templates.

Record Metadata : Type := {
  name : string;
  description : string;
  suitable_for : list string
}.

(** The built-in table of [get_all_templates]. *)
Definition template_metadata : list (string * Metadata) :=
  [("feature",
    {| name := "Feature";
       description := "For new features and enhancements";
       suitable_for := ["New functionality"; "Feature enhancements";
                        "New API endpoints"; "UI/UX improvements"] |});
   ("bugfix",
    {| name := "Bug Fix";
       description := "For fixing bugs and issues";
       suitable_for := ["Bug fixes"; "Error handling improvements";
                        "Performance fixes"; "Security fixes"] |});
   ("hotfix",
    {| name := "Hotfix";
       description := "For critical production issues";
       suitable_for := ["Critical production bugs"; "Security vulnerabilities";
                        "Service outages"; "Data corruption fixes"] |});
   ("docs",
    {| name := "Documentation";
       description := "For documentation changes";
       suitable_for := ["README updates"; "API documentation";
                        "Code comments"; "Architecture docs"] |})].

Fixpoint metadata_get (table : list (string * Metadata)) (key : string)
    (default : Metadata) : Metadata :=
  match table with
  | [] => default
  | (k, v) :: table' => if String.eqb k key then v else metadata_get table' key default
  end.

(** What reading one [*.md] file of the template directory gives. *)
Inductive FileRead : Type :=
| ReadOk (content : string)
| ReadFailed (e : exn).

(** One value of the dict returned by [get_all_templates]. *)
Inductive Template : Type :=
| Loaded (content file_path : string) (metadata : Metadata)
| Unreadable (error file_path : string).

(** [template.get("content", "")] *)
Definition template_content (t : Template) : string :=
  match t with
  | Loaded content _ _ => content
  | Unreadable _ _ => EmptyString
  end.

Section WithDirectory.

(** [str.title], a built-in that leaves the code points below 256. *)
Variable title : string -> string.

(** The [*.md] files of the template directory: the stem of each,
    with [str(template_file)] and the outcome of reading it. *)
Variable templates_dir : gmap string (string * FileRead).

Definition load_template (template_name : string) (file : string * FileRead)
  : option Template :=
  let '(file_path, read) := file in
  Some match read with
       | ReadOk content =>
           Loaded content file_path
             (metadata_get template_metadata template_name
                {| name := title template_name;
                   description := "Template for " +:+ template_name;
                   suitable_for := [] |})
       | ReadFailed e =>
           Unreadable ("Could not load template: " +:+ str_exn e) file_path
       end.

Definition get_all_templates : gmap string Template :=
  map_imap load_template templates_dir.

Definition get_template (template_name : string) : option Template :=
  get_all_templates !! template_name.

(** [list(self.get_all_templates().keys())], in the order of the
    directory scan. *)
Definition list_available_templates : list string :=
  (map_to_list get_all_templates).*1.

End WithDirectory.

(** The dict returned by [get_template_suggestions]. *)
Record Suggestions (Dict : Type) : Type := {
  primary_suggestions : list string;
  secondary_suggestions : list string;
  analysis_data : Dict;
  confidence : string;
  reasoning : string
}.
Arguments primary_suggestions {Dict} _.
Arguments secondary_suggestions {Dict} _.
Arguments analysis_data {Dict} _.
Arguments confidence {Dict} _.
Arguments reasoning {Dict} _.

(** The four counters of the classification pass. *)
Record Buckets : Type := {
  doc_files : nat;
  code_files : nat;
  config_files : nat;
  test_files : nat
}.

Definition doc_markers : list string := [".md"; ".txt"; ".rst"; "readme"; "docs/"].
Definition test_markers : list string := ["test_"; "_test"; "spec_"; "_spec"; "tests/"].
Definition config_markers : list string :=
  [".json"; ".yaml"; ".yml"; ".toml"; ".ini"; "config"].

(** The body of [for change in file_changes]. *)
Definition classify (filename : string) (b : Buckets) : Buckets :=
  let filename := Py.lower filename in
  if Py.any_in doc_markers filename then
    {| doc_files := S (doc_files b); code_files := code_files b;
       config_files := config_files b; test_files := test_files b |}
  else if Py.any_in test_markers filename then
    {| doc_files := doc_files b; code_files := code_files b;
       config_files := config_files b; test_files := S (test_files b) |}
  else if Py.any_in config_markers filename then
    {| doc_files := doc_files b; code_files := code_files b;
       config_files := S (config_files b); test_files := test_files b |}
  else
    {| doc_files := doc_files b; code_files := S (code_files b);
       config_files := config_files b; test_files := test_files b |}.

Fixpoint classify_loop (file_changes : list GitTools.FileChange) (b : Buckets)
  : Buckets :=
  match file_changes with
  | [] => b
  | change :: rest => classify_loop rest (classify (GitTools.filename change) b)
  end.

Section Suggest.

(** The change analysis is a dict; the engine reads its
    ["file_changes"] entry and its rendering [str(change_analysis)]. *)
Context {Dict : Type}.
Variable get_file_changes_entry : Dict -> list GitTools.FileChange.
Variable py_str : Dict -> string.

Definition get_template_suggestions (change_analysis : Dict) : Suggestions Dict :=
  let file_changes := get_file_changes_entry change_analysis in
  let b := classify_loop file_changes
             {| doc_files := 0; code_files := 0; config_files := 0; test_files := 0 |} in
  let total_files := length file_changes in
  let '(primary, secondary) :=
    if (total_files =? 0)%nat then (["feature"], [])
    else if (code_files b <? doc_files b)%nat then (["docs"], ["feature"])
    else if Py.any_in ["fix"; "bug"; "error"; "issue"]
              (Py.lower (py_str change_analysis))
    then (["bugfix"], ["feature"])
    else if Py.any_in ["critical"; "urgent"; "hotfix"; "production"]
              (Py.lower (py_str change_analysis))
    then (["hotfix"], ["bugfix"])
    else (["feature"], ["docs"; "bugfix"]) in
  {| primary_suggestions := primary;
     secondary_suggestions := secondary;
     analysis_data := change_analysis;
     confidence := "low";
     reasoning := "Basic heuristic analysis - Claude will provide better suggestions" |}.

End Suggest.

End Templates.

(** ** server.py *)

Module Server.

Import GitTools Templates.

(** The dict returned by [analyze_file_changes]: the report of
    [get_file_changes] spread into it, with four more keys; or the
    payload of the [except] branch. *)
Inductive AnalysisResult : Type :=
| Analysis (changes : ChangeReport) (branch_info : BranchInfo)
    (recent_commits : list CommitEntry) (analysis_timestamp tool_version : string)
| AnalysisFailed (error target_branch repo_path : string)
    (total_files_changed : nat) (file_changes : list FileChange)
    (diff_stats diff_content : string) (truncated : bool).

(** [change_analysis.get("file_changes", [])] *)
Definition file_changes_entry (a : AnalysisResult) : list FileChange :=
  match a with
  | Analysis changes _ _ _ _ => file_changes changes
  | AnalysisFailed _ _ _ _ fc _ _ _ => fc
  end.

(** [change_analysis.get("total_files_changed", 0)] *)
Definition total_files_changed_entry (a : AnalysisResult) : nat :=
  match a with
  | Analysis changes _ _ _ _ => total_files_changed changes
  | AnalysisFailed _ _ _ n _ _ _ _ => n
  end.

(** [change_analysis.get("change_summary", {})]; [None] is the empty
    dict. *)
Definition change_summary_entry (a : AnalysisResult) : option Summary :=
  match a with
  | Analysis changes _ _ _ _ => change_summary changes
  | AnalysisFailed _ _ _ _ _ _ _ _ => None
  end.

(** [change_analysis.get("branch_comparison", "")] *)
Definition branch_comparison_entry (a : AnalysisResult) : string :=
  match a with
  | Analysis changes _ _ _ _ => branch_comparison changes
  | AnalysisFailed _ _ _ _ _ _ _ _ => EmptyString
  end.

(** [change_analysis.get("diff_content", "")] *)
Definition diff_content_entry (a : AnalysisResult) : string :=
  match a with
  | Analysis changes _ _ _ _ => diff_content changes
  | AnalysisFailed _ _ _ _ _ _ dc _ => dc
  end.

(** [change_analysis.get("truncated", False)] *)
Definition truncated_entry (a : AnalysisResult) : bool :=
  match a with
  | Analysis changes _ _ _ _ => truncated changes
  | AnalysisFailed _ _ _ _ _ _ _ t => t
  end.

(** The dict returned by [get_pr_templates]. *)
Record TemplatesResult : Type := {
  templates : gmap string Template;
  available_templates : list string;
  total_templates : nat;
  template_directory : string;
  usage_note : string
}.

Record AnalysisMetadata : Type := {
  files_changed : nat;
  change_types : option Summary;
  meta_branch_comparison : string;
  has_diff_content : bool;
  diff_truncated : bool
}.

(** The dict returned by [suggest_template]. *)
Record SuggestResult : Type := {
  suggested_templates : Suggestions AnalysisResult;
  suggest_change_analysis : AnalysisResult;
  suggest_available_templates : gmap string Template;
  analysis_metadata : AnalysisMetadata;
  recommendation_note : string
}.

(** The dict returned by [get_git_status]. *)
Record StatusResult : Type := {
  status_field : string;
  status_branch_info : BranchInfo
}.

Record BasicChecks : Type := {
  has_description : bool;
  reasonable_length : bool;
  contains_checklist : bool
}.

(** The two dicts [validate_pr_description] returns. *)
Inductive ValidationResult : Type :=
| Validation (template_used : string) (description_length : nat)
    (template_content : string) (change_analysis : option AnalysisResult)
    (basic_checks : BasicChecks) (validation_note : string)
| TemplateNotFound (valid : bool) (error : string) (available_templates : list string).

(** The module-level globals: [git_analyzer] is reassigned by
    [analyze_file_changes], [template_manager] never. *)
Record Globals : Type := { git_analyzer : GitAnalyzer }.

Section WithWorld.

Variable git : string -> list string -> CompletedProcess.
(** [Path(repo_path).resolve()], rendered as a string. *)
Variable resolve : string -> result string.
Variable title : string -> string.
Variable templates_dir : gmap string (string * FileRead).
(** [str(change_analysis)], Python's rendering of the dict. *)
Variable py_str : AnalysisResult -> string.

(** [GitAnalyzer(repo_path)] *)
Definition new_GitAnalyzer (repo_path : string) : result GitAnalyzer :=
  p ← resolve repo_path; Ok {| GitTools.repo_path := p |}.

Definition analyze_file_changes (target_branch repo_path : string) (max_tokens : Z)
    (g : Globals) : AnalysisResult * Globals :=
  match
    (if negb (String.eqb repo_path ".") then
       a ← new_GitAnalyzer repo_path; Ok {| git_analyzer := a |}
     else Ok g)
  with
  | Ok g' =>
      let changes := get_file_changes git (git_analyzer g') target_branch max_tokens in
      let branch_info := get_branch_info git (git_analyzer g') in
      let commit_messages := get_commit_messages git (git_analyzer g') target_branch 5 in
      (Analysis changes branch_info commit_messages "2025-06-14" "1.0.0", g')
  | Raise e =>
      (AnalysisFailed ("Failed to analyze file changes: " +:+ str_exn e)
         target_branch repo_path 0 [] EmptyString EmptyString false, g)
  end.

Definition get_pr_templates : TemplatesResult :=
  let all := get_all_templates title templates_dir in
  {| templates := all;
     available_templates := (map_to_list all).*1;
     total_templates := size all;
     template_directory := "templates";
     usage_note :=
       "Each template includes metadata about when it's most suitable to use." |}.

Definition suggest_template (change_analysis : option AnalysisResult)
    (target_branch repo_path : string) (g : Globals) : SuggestResult * Globals :=
  let '(analysis, g') :=
    match change_analysis with
    | None => analyze_file_changes target_branch repo_path 25000 g
    | Some a => (a, g)
    end in
  let templates_data := get_pr_templates in
  let suggestions := get_template_suggestions file_changes_entry py_str analysis in
  ({| suggested_templates := suggestions;
      suggest_change_analysis := analysis;
      suggest_available_templates := templates templates_data;
      analysis_metadata :=
        {| files_changed := total_files_changed_entry analysis;
           change_types := change_summary_entry analysis;
           meta_branch_comparison := branch_comparison_entry analysis;
           has_diff_content := Py.truthy (diff_content_entry analysis);
           diff_truncated := truncated_entry analysis |};
      recommendation_note :=
        "The 'suggested_templates' field contains basic heuristic suggestions. "
        +:+ "Use the 'change_analysis' and 'available_templates' data to make "
        +:+ "more intelligent recommendations based on the actual code changes." |},
   g').

Definition get_git_status (g : Globals) : StatusResult :=
  {| status_field := "success";
     status_branch_info := get_branch_info git (git_analyzer g) |}.

Definition validate_pr_description (description template_name : string)
    (change_analysis : option AnalysisResult) : ValidationResult :=
  match get_template title templates_dir template_name with
  | None =>
      TemplateNotFound false
        ("Template '" +:+ template_name +:+ "' not found")
        (list_available_templates title templates_dir)
  | Some template =>
      Validation template_name (Py.len description)
        (Templates.template_content template) change_analysis
        {| has_description := (0 <? Py.len (Py.strip description))%nat;
           reasonable_length :=
             (10 <? Py.len description)%nat && (Py.len description <? 5000)%nat;
           contains_checklist :=
             Py.contains "- [ ]" description || Py.contains "- [x]" description |}
        ("This provides basic validation data. Use Claude's analysis "
         +:+ "to determine if the description adequately covers the changes "
         +:+ "and follows the template structure.")
  end.

(** One tool invocation arriving from the host. *)
Inductive Call : Type :=
| CallAnalyze (target_branch repo_path : string) (max_tokens : Z)
| CallTemplates
| CallSuggest (change_analysis : option AnalysisResult) (target_branch repo_path : string)
| CallStatus
| CallValidate (description template_name : string)
    (change_analysis : option AnalysisResult).

(** The effect of one invocation on the globals. *)
Definition step (c : Call) (g : Globals) : Globals :=
  match c with
  | CallAnalyze t p m => snd (analyze_file_changes t p m g)
  | CallSuggest a t p => snd (suggest_template a t p g)
  | CallTemplates | CallStatus | CallValidate _ _ _ => g
  end.

Definition run (calls : list Call) (g : Globals) : Globals :=
  fold_left (fun g c => step c g) calls g.

(** Whether the invocation reaches [analyze_file_changes] with a
    [repo_path] other than ["."]: directly, or through
    [suggest_template] when no analysis is supplied. *)
Definition reconfigures (c : Call) : bool :=
  match c with
  | CallAnalyze _ p _ => negb (String.eqb p ".")
  | CallSuggest None _ p => negb (String.eqb p ".")
  | _ => false
  end.

End WithWorld.

End Server.

(** ** Sample worlds

    Concrete oracles and inputs on which the statements below are
    evaluated. *)

Module Samples.

Import GitTools.

(** A tool that fails every invocation. *)
Definition failing_git (cwd : string) (argv : list string) : CompletedProcess :=
  {| returncode := 128; stdout := EmptyString;
     stderr := "fatal: not a git repository" |}.

(** A repository with two changed files and a two-line diff. *)
Definition small_git (cwd : string) (argv : list string) : CompletedProcess :=
  match argv with
  | [_; "diff"; "--name-status"; _] =>
      {| returncode := 0;
         stdout := "M" +:+ String Py.tab "src/a.py"
                   +:+ String Py.nl ("A" +:+ String Py.tab "README.md");
         stderr := EmptyString |}
  | [_; "diff"; "--stat"; _] =>
      {| returncode := 0; stdout := " 2 files changed"; stderr := EmptyString |}
  | [_; "diff"; _] =>
      {| returncode := 0; stdout := "ab" +:+ String Py.nl "cd"; stderr := EmptyString |}
  | _ :: "log" :: _ =>
      {| returncode := 0;
         stdout := "1f3a|Fix typo|Ada|2025-06-01"
                   +:+ String Py.nl ("not a commit line"
                   +:+ String Py.nl "9c2e|Add a|b option|Bob|2025-06-02");
         stderr := EmptyString |}
  | _ => {| returncode := 0; stdout := EmptyString; stderr := EmptyString |}
  end.

Definition here : GitAnalyzer := {| repo_path := "/repo" |}.

(** A template directory with the four conventional templates, of
    which one cannot be read, and a custom one. *)
Definition templates_dir : gmap string (string * Templates.FileRead) :=
  list_to_map
    [("feature", ("templates/feature.md", Templates.ReadOk "## Feature"));
     ("bugfix", ("templates/bugfix.md", Templates.ReadOk "## Bug fix"));
     ("hotfix", ("templates/hotfix.md",
                 Templates.ReadFailed (Exception "Permission denied")));
     ("docs", ("templates/docs.md", Templates.ReadOk "## Documentation"));
     ("release", ("templates/release.md", Templates.ReadOk "## Release"))].

(** A tool that finds a repository under [/work/project] only. *)
Definition project_git (cwd : string) (argv : list string) : CompletedProcess :=
  if String.eqb cwd "/work/project" then small_git cwd argv else failing_git cwd argv.

(** A stand-in for [Path.resolve] from the working directory [/srv]. *)
Definition resolve (path : string) : result string :=
  if String.eqb path "." then Ok "/srv"
  else match path with
       | String "/" _ => Ok path
       | _ => Ok ("/srv/" +:+ path)
       end.

(** A stand-in for [str.title] that capitalises nothing. *)
Definition title (s : string) : string := s.

End Samples.

Module SuggestSamples.

Import GitTools.

(** A change of a given filename, as the listing parser builds it. *)
Definition modified_file (filename : string) : FileChange :=
  {| status := "M"; filename := filename; change_type := "modified" |}.

(** Two documentation files and one source file. *)
Definition docs_heavy : list FileChange :=
  [modified_file "README.md"; modified_file "src/main.py"; modified_file "docs/guide.md"].

(** A stand-in for the rendering of a dict that only holds the
    [file_changes] list: the filenames, one after the other. *)
Definition render (changes : list FileChange) : string :=
  Py.join ", " (map GitTools.filename changes).

End SuggestSamples.

(** ** Further definitions used in the statements below *)

Module Derived.

Import GitTools.

(** How many changes are of a given kind. *)
Definition kind_count (kind : string) (changes : list FileChange) : nat :=
  length (List.filter (fun c => String.eqb (change_type c) kind) changes).

(** A change the tally of [_summarize_changes] accepts: its kind is not
    the name of one of the two keys of the summary that hold no number. *)
Definition summable (c : FileChange) : Prop :=
  change_type c <> "file_types" /\ change_type c <> "directories".

(** One line of the name-status listing, as the tool prints it: a
    status, a tab, a path and, for a rename or a copy, a tab and the new
    path. *)
Record ListingEntry : Type := {
  entry_status : string;
  entry_path : string;
  entry_new_path : option string
}.

Definition listing_line (e : ListingEntry) : string :=
  entry_status e +:+ String Py.tab EmptyString +:+ entry_path e
  +:+ match entry_new_path e with
      | Some p => String Py.tab p
      | None => EmptyString
      end.

(** The classification of a status that is not empty. *)
Definition kind_of (status : string) : string :=
  match status with
  | EmptyString => "unknown"
  | String c _ => status_map_get status_map c "unknown"
  end.

(** The entry [get_file_changes] builds from a line of the listing. *)
Definition change_of (e : ListingEntry) : FileChange :=
  {| status := entry_status e; filename := entry_path e;
     change_type := kind_of (entry_status e) |}.

(** A line the tool can print: the status has a visible character, and
    neither the status nor the path has a tab in it. *)
Definition printable (e : ListingEntry) : Prop :=
  Py.all_space (entry_status e) = false
  /\ Py.contains (String Py.tab EmptyString) (entry_status e) = false
  /\ Py.contains (String Py.tab EmptyString) (entry_path e) = false.

(** What holds of every entry of a report: the status is not empty, the
    kind is the classification of the status, and neither the status nor
    the filename has a tab in it. *)
Definition parsed (c : FileChange) : Prop :=
  status c <> EmptyString
  /\ _get_change_type (status c) = Ok (change_type c)
  /\ Py.contains (String Py.tab EmptyString) (status c) = false
  /\ Py.contains (String Py.tab EmptyString) (filename c) = false.

(** The bucket of a filename, by the precedence of the classification
    pass: documentation before test before configuration before code. *)
Definition is_doc (c : FileChange) : bool :=
  Py.any_in Templates.doc_markers (Py.lower (filename c)).

Definition is_test (c : FileChange) : bool :=
  negb (is_doc c) && Py.any_in Templates.test_markers (Py.lower (filename c)).

Definition is_config (c : FileChange) : bool :=
  negb (is_doc c) && negb (is_test c)
  && Py.any_in Templates.config_markers (Py.lower (filename c)).

Definition is_code (c : FileChange) : bool :=
  negb (is_doc c) && negb (is_test c) && negb (is_config c).

(** The analyzer a call of [analyze_file_changes] works with: the
    global one for the path ["."], the analyzer of the resolved path
    otherwise, none when the path does not resolve. *)
Definition analyzer_used (resolve : string -> result string) (repo_path : string)
    (g : Server.Globals) : option GitAnalyzer :=
  if String.eqb repo_path "." then Some (Server.git_analyzer g)
  else match resolve repo_path with
       | Ok resolved => Some {| GitTools.repo_path := resolved |}
       | Raise _ => None
       end.

(** The four names the suggestion engine chooses from. *)
Definition suggested_names : list string := ["feature"; "docs"; "bugfix"; "hotfix"].

(** The repository path an invocation asks for, when it reconfigures. *)
Definition requested_path (c : Server.Call) : string :=
  match c with
  | Server.CallAnalyze _ p _ => p
  | Server.CallSuggest _ _ p => p
  | _ => "."
  end.

End Derived.

Module MoreSamples.

Import GitTools.

(** A repository whose diff has three lines of thirty characters. *)
Definition long_git (cwd : string) (argv : list string) : CompletedProcess :=
  match argv with
  | [_; "diff"; _] =>
      {| returncode := 0;
         stdout := "+aaaaaaaaaaaaaaaaaaaaaaaaaaaaa"
                   +:+ String Py.nl ("+bbbbbbbbbbbbbbbbbbbbbbbbbbbbb"
                   +:+ String Py.nl "+ccccccccccccccccccccccccccccc");
         stderr := EmptyString |}
  | _ => Samples.small_git cwd argv
  end.

(** A tool whose listing has a line that starts with a tab. *)
Definition tabbed_git (cwd : string) (argv : list string) : CompletedProcess :=
  match argv with
  | [_; "diff"; "--name-status"; _] =>
      {| returncode := 0;
         stdout := "M" +:+ String Py.tab "a.py" +:+ String Py.nl (String Py.tab "b.py");
         stderr := EmptyString |}
  | _ => Samples.small_git cwd argv
  end.


(** A path resolution that fails on the empty path. *)
Definition strict_resolve (path : string) : result string :=
  match path with
  | EmptyString => Raise (Exception "empty path")
  | _ => Samples.resolve path
  end.

End MoreSamples.

(** * Properties *)

(** ** The string primitives on small inputs *)

Example strip_both_ends :
  Py.strip (String Py.tab " a b " +:+ String Py.nl EmptyString) = "a b".
Proof. reflexivity. Qed.

Example split_keeps_empty_fields :
  Py.split "|" "a||b|" = ["a"; EmptyString; "b"; EmptyString].
Proof. reflexivity. Qed.

Example split_of_empty : Py.split "|" EmptyString = [EmptyString].
Proof. reflexivity. Qed.

Example lower_mixed_case : Py.lower "ReadMe.MD" = "readme.md".
Proof. reflexivity. Qed.

Example contains_factor : Py.contains "- [x]" "done: - [x] tests" = true.
Proof. reflexivity. Qed.

Example dirname_nested : GitTools.dirname "src/pkg/mod.py" = "src/pkg".
Proof. reflexivity. Qed.

Example dirname_root_file : GitTools.dirname "setup.py" = EmptyString.
Proof. reflexivity. Qed.

Example dirname_absolute : GitTools.dirname "/etc" = "/".
Proof. reflexivity. Qed.

Example marker_text :
  GitTools.marker 12 = String Py.nl "... [DIFF TRUNCATED - 12 more lines] ...".
Proof. reflexivity. Qed.

(** ** Facts about the string primitives *)

Module PyFacts.

Import Py.

Lemma sapp_cons (c : ascii) (a b : string) : String c a +:+ b = String c (a +:+ b).
Proof. reflexivity. Qed.

Lemma sapp_nil (b : string) : EmptyString +:+ b = b.
Proof. reflexivity. Qed.

Lemma len_app (a b : string) : len (a +:+ b) = (len a + len b)%nat.
Proof.
  unfold len. induction a as [|c a IH]; [reflexivity |].
  rewrite sapp_cons. simpl. now rewrite IH.
Qed.

Lemma sapp_empty_r (a : string) : a +:+ EmptyString = a.
Proof. induction a as [|c a IH]; [reflexivity |]. now rewrite sapp_cons, IH. Qed.

Lemma sapp_assoc (a b c : string) : (a +:+ b) +:+ c = a +:+ (b +:+ c).
Proof. induction a as [|x a IH]; [reflexivity |]. now rewrite !sapp_cons, IH. Qed.

Lemma split_nonempty (sep : ascii) (s : string) : split sep s <> [].
Proof.
  destruct s as [|c s]; simpl; [discriminate |].
  destruct (Ascii.eqb c sep); [discriminate |].
  destruct (split sep s); discriminate.
Qed.

(** Joining the pieces with the separator gives the string back. *)
Lemma join_split (sep : ascii) (s : string) :
  join (String sep EmptyString) (split sep s) = s.
Proof.
  induction s as [|c s IH]; [reflexivity |].
  simpl. destruct (Ascii.eqb_spec c sep) as [->|Hne].
  - pose proof (split_nonempty sep s) as Hs.
    unfold join in *. simpl.
    destruct (split sep s) as [|h t]; [congruence |].
    rewrite sapp_nil, sapp_cons, sapp_nil. now rewrite IH.
  - pose proof (split_nonempty sep s) as Hs.
    unfold join in *.
    destruct (split sep s) as [|h t]; [congruence |].
    destruct t as [|y t].
    + simpl in *. now rewrite IH.
    + change (String.concat (String sep EmptyString) (String c h :: y :: t))
        with (String c (h +:+ String sep EmptyString
                          +:+ String.concat (String sep EmptyString) (y :: t))).
      now rewrite <- IH.
Qed.

Lemma weight_app (l1 l2 : list string) : weight (l1 ++ l2) = weight l1 + weight l2.
Proof. induction l1 as [|x l1 IH]; simpl; lia. Qed.

Lemma weight_split (sep : ascii) (s : string) :
  weight (split sep s) = Z.of_nat (len s) + 1.
Proof.
  induction s as [|c s IH]; [reflexivity |].
  simpl split. pose proof (split_nonempty sep s) as Hs.
  destruct (Ascii.eqb c sep).
  - simpl weight. rewrite IH. unfold len. simpl String.length. lia.
  - destruct (split sep s) as [|h t]; [congruence |].
    simpl weight in *. unfold len in *. simpl String.length. lia.
Qed.

Lemma weight_nonneg (l : list string) : 0 <= weight l.
Proof. induction l; simpl; lia. Qed.

Lemma join_snoc (sep : string) (l : list string) (x : string) :
  l <> [] -> join sep (l ++ [x]) = join sep l +:+ sep +:+ x.
Proof.
  unfold join. induction l as [|a l IH]; [congruence |]. intros _.
  destruct l as [|b l].
  - reflexivity.
  - change (String.concat sep ((a :: b :: l) ++ [x]))
      with (a +:+ sep +:+ String.concat sep ((b :: l) ++ [x])).
    rewrite IH by discriminate.
    change (String.concat sep (a :: b :: l))
      with (a +:+ sep +:+ String.concat sep (b :: l)).
    now rewrite !sapp_assoc.
Qed.

Lemma len_join_nl (l : list string) :
  l <> [] -> Z.of_nat (len (join (String nl EmptyString) l)) = weight l - 1.
Proof.
  unfold join. induction l as [|a l IH]; [congruence |]. intros _.
  destruct l as [|b l].
  - simpl. lia.
  - change (String.concat (String nl EmptyString) (a :: b :: l))
      with (a +:+ String nl EmptyString +:+ String.concat (String nl EmptyString) (b :: l)).
    rewrite !len_app, !Nat2Z.inj_add, IH by discriminate.
    simpl weight. unfold len at 2. simpl String.length. lia.
Qed.

(** [needle in s] holds exactly when [s] has [needle] as a factor. *)
Lemma prefix_app (needle rest : string) : String.prefix needle (needle +:+ rest) = true.
Proof.
  induction needle as [|c n IH]; [now destruct rest |].
  rewrite sapp_cons. simpl. destruct (ascii_dec c c); [assumption | congruence].
Qed.

Lemma prefix_inv (needle s : string) :
  String.prefix needle s = true -> exists rest, s = needle +:+ rest.
Proof.
  revert s. induction needle as [|c n IH]; intros s H.
  - exists s. reflexivity.
  - destruct s as [|d s]; simpl in H; [discriminate |].
    destruct (ascii_dec c d) as [->|]; [|discriminate].
    destruct (IH s H) as [rest ->]. exists rest. reflexivity.
Qed.

Lemma contains_unfold (needle s : string) :
  contains needle s
  = String.prefix needle s
    || match s with EmptyString => false | String _ s' => contains needle s' end.
Proof. destruct s; reflexivity. Qed.

Lemma contains_prefix (needle s : string) :
  String.prefix needle s = true -> contains needle s = true.
Proof. intros H. rewrite contains_unfold, H. reflexivity. Qed.

Lemma contains_app (pre needle post : string) :
  contains needle (pre +:+ needle +:+ post) = true.
Proof.
  induction pre as [|c pre IH].
  - rewrite sapp_nil. apply contains_prefix, prefix_app.
  - rewrite sapp_cons, contains_unfold, IH. apply orb_true_r.
Qed.

Lemma contains_inv (needle s : string) :
  contains needle s = true -> exists pre post, s = pre +:+ needle +:+ post.
Proof.
  induction s as [|c s IH]; rewrite contains_unfold; intros H.
  - rewrite orb_false_r in H. destruct (prefix_inv _ _ H) as [rest ->].
    exists EmptyString, rest. reflexivity.
  - apply orb_true_iff in H as [H|H].
    + destruct (prefix_inv _ _ H) as [rest ->]. exists EmptyString, rest. reflexivity.
    + destruct (IH H) as (pre & post & ->). exists (String c pre), post. reflexivity.
Qed.

Lemma contains_iff (needle s : string) :
  contains needle s = true <-> exists pre post, s = pre +:+ needle +:+ post.
Proof.
  split; [apply contains_inv |]. intros (pre & post & ->). apply contains_app.
Qed.

Lemma lower_app (a b : string) : lower (a +:+ b) = lower a +:+ lower b.
Proof.
  induction a as [|c a IH]; [reflexivity |]. rewrite sapp_cons. simpl. now rewrite IH.
Qed.

(** Stripping leaves nothing exactly when every character is white
    space. *)
Lemma rstrip_empty (s : string) : rstrip s = EmptyString <-> all_space s = true.
Proof.
  induction s as [|c s IH]; simpl; [tauto |].
  destruct (rstrip s) eqn:E.
  - destruct (is_space c); simpl; [tauto |]. split; discriminate.
  - split; [discriminate |]. intros H. apply andb_true_iff in H as [_ H].
    apply IH in H. discriminate.
Qed.

Lemma strip_empty (s : string) : strip s = EmptyString <-> all_space s = true.
Proof.
  unfold strip. induction s as [|c s IH]; simpl; [tauto |].
  destruct (is_space c) eqn:E; simpl; [exact IH |].
  rewrite E. destruct (rstrip s); split; discriminate.
Qed.

Lemma truthy_false (s : string) : truthy s = false <-> s = EmptyString.
Proof. destruct s; simpl; split; congruence. Qed.

Lemma len_zero (s : string) : len s = 0%nat <-> s = EmptyString.
Proof. destruct s; unfold len; simpl; split; congruence. Qed.

End PyFacts.

(** ** Diff truncation *)

Module TruncateFacts.

Import Py PyFacts GitTools.

(** Once the lines still to come do not fit, the loop stops at the
    first line that overflows and closes with the marker; the lines
    emitted before it fit the budget. *)
Lemma truncate_loop_over (total : nat) (max_chars : Z) (lines : list string) :
  forall (acc : list string) (cur : Z),
    lines <> [] ->
    cur + weight lines > max_chars ->
    exists pre post,
      lines = pre ++ post /\ post <> [] /\
      truncate_loop total max_chars lines acc cur
      = (acc ++ pre)
          ++ [marker (Z.of_nat total - Z.of_nat (length (acc ++ pre)))] /\
      (pre <> [] -> cur + weight pre <= max_chars).
Proof.
  induction lines as [|line rest IH]; intros acc cur Hne Hover; [congruence |].
  simpl truncate_loop.
  destruct (cur + (Z.of_nat (len line) + 1) >? max_chars) eqn:E.
  - exists [], (line :: rest). rewrite List.app_nil_r.
    repeat split; [discriminate | congruence].
  - rewrite Z.gtb_ltb, Z.ltb_ge in E.
    assert (Hrest : rest <> []).
    { intros ->. simpl in Hover. lia. }
    destruct (IH (acc ++ [line]) (cur + (Z.of_nat (len line) + 1)) Hrest)
      as (pre & post & -> & Hpost & Hloop & Hfit).
    { simpl in Hover. lia. }
    exists (line :: pre), post.
    replace (acc ++ line :: pre) with ((acc ++ [line]) ++ pre)
      by (rewrite <- List.app_assoc; reflexivity).
    repeat split; [assumption | exact Hloop |].
    intros _. destruct pre as [|p pre].
    + simpl. lia.
    + specialize (Hfit ltac:(discriminate)). simpl weight in *. lia.
Qed.

(** Above the budget: the result is the emitted lines and the marker,
    the marker counts the lines left out, and the emitted lines alone
    fit a budget that is not negative.  The marker itself comes on
    top. *)
Lemma truncate_diff_over_budget (diff : string) (max_chars : Z) :
  Z.of_nat (len diff) > max_chars ->
  exists emitted rest,
    split nl diff = emitted ++ rest /\ rest <> [] /\
    let m := marker (Z.of_nat (length (split nl diff)) - Z.of_nat (length emitted)) in
    _truncate_diff diff max_chars = join (String nl EmptyString) (emitted ++ [m]) /\
    (exists body, _truncate_diff diff max_chars = body +:+ m) /\
    Z.of_nat (len (_truncate_diff diff max_chars)) = weight emitted + Z.of_nat (len m) /\
    (0 <= max_chars -> weight emitted <= max_chars).
Proof.
  intros Hover. unfold _truncate_diff.
  destruct (Z.of_nat (len diff) <=? max_chars) eqn:E; [apply Z.leb_le in E; lia |].
  destruct (truncate_loop_over (length (split nl diff)) max_chars (split nl diff) [] 0)
    as (pre & post & Hsplit & Hpost & Hloop & Hfit).
  { apply split_nonempty. }
  { rewrite weight_split. lia. }
  simpl in Hloop. exists pre, post. cbv zeta. rewrite Hloop.
  repeat split; try assumption.
  - destruct pre as [|p pre].
    + exists EmptyString. reflexivity.
    + rewrite join_snoc by discriminate.
      eexists. rewrite <- sapp_assoc. reflexivity.
  - destruct pre as [|p pre].
    + simpl. lia.
    + rewrite join_snoc by discriminate.
      rewrite !len_app, !Nat2Z.inj_add, len_join_nl by discriminate.
      change (len (String nl EmptyString)) with 1%nat. lia.
  - intros Hmax. destruct pre as [|p pre]; [simpl; lia |].
    specialize (Hfit ltac:(discriminate)). lia.
Qed.

End TruncateFacts.

(** C1.  The diff ["ab\ncd"] (5 characters) against a budget of 4: the
    routine keeps the first line and appends the marker, so the text it
    returns is 43 characters long, more than the budget; the same
    happens to [diff_content] in the report of [get_file_changes] with
    [max_tokens = 2004], whose [truncated] flag stays false because the
    text did not get shorter.  The marker line is there and counts the
    one line left out. *)
Theorem truncate_diff_exceeds_budget :
  let diff := "ab" +:+ String Py.nl "cd" in
  let out := GitTools._truncate_diff diff 4 in
  (Z.of_nat (Py.len diff) > 4)
  /\ out = "ab" +:+ String Py.nl (GitTools.marker (2 - 1))
  /\ Py.len out = 43%nat
  /\ ~ (Z.of_nat (Py.len out) <= 4)
  /\ let report := GitTools.get_file_changes Samples.small_git Samples.here "main" 2004 in
     GitTools.error report = None
     /\ GitTools.diff_content report = out
     /\ GitTools.truncated report = false
     /\ ~ (Z.of_nat (Py.len (GitTools.diff_content report)) <= 2004 - 2000).
Proof.
  cbv zeta.
  assert (Hout : GitTools._truncate_diff ("ab" +:+ String Py.nl "cd") 4
                 = "ab" +:+ String Py.nl (GitTools.marker (2 - 1)))
    by (vm_compute; reflexivity).
  assert (Hrep : GitTools.diff_content
                   (GitTools.get_file_changes Samples.small_git Samples.here "main" 2004)
                 = GitTools._truncate_diff ("ab" +:+ String Py.nl "cd") 4)
    by (vm_compute; reflexivity).
  assert (Hlen : Py.len (GitTools._truncate_diff ("ab" +:+ String Py.nl "cd") 4) = 43%nat)
    by (vm_compute; reflexivity).
  split; [vm_compute; reflexivity |].
  split; [exact Hout |].
  split; [exact Hlen |].
  split; [rewrite Hlen; lia |].
  split; [vm_compute; reflexivity |].
  split; [exact Hrep |].
  split; [vm_compute; reflexivity |].
  rewrite Hrep, Hlen. lia.
Qed.

(** C4.  A diff that fits the budget comes back unchanged, and the
    report built from it has [truncated = false] (and carries the whole
    diff when the analysis succeeds). *)
Theorem truncate_diff_within_budget :
  (forall (diff : string) (max_chars : Z),
      Z.of_nat (Py.len diff) <= max_chars ->
      GitTools._truncate_diff diff max_chars = diff)
  /\ (forall git self (target_branch : string) (max_tokens : Z),
        let full_diff :=
          Py.strip (GitTools.stdout
                      (git (GitTools.repo_path self)
                         ["git"; "diff"; target_branch +:+ "...HEAD"])) in
        let report := GitTools.get_file_changes git self target_branch max_tokens in
        Z.of_nat (Py.len full_diff) <= max_tokens - 2000 ->
        GitTools.truncated report = false
        /\ (GitTools.error report = None -> GitTools.diff_content report = full_diff)).
Proof.
  assert (Hkeep : forall diff max_chars,
             Z.of_nat (Py.len diff) <= max_chars ->
             GitTools._truncate_diff diff max_chars = diff).
  { intros diff max_chars H. unfold GitTools._truncate_diff.
    apply Z.leb_le in H. now rewrite H. }
  split; [exact Hkeep |].
  intros git self target max_tokens full_diff report Hfit. subst report.
  unfold GitTools.get_file_changes, GitTools.file_changes_body, GitTools._run_git_command.
  destruct (GitTools.returncode (git _ ["git"; "diff"; "--name-status"; _]) =? 0);
    [|split; [reflexivity | discriminate]].
  destruct (GitTools.returncode (git _ ["git"; "diff"; "--stat"; _]) =? 0);
    [|split; [reflexivity | discriminate]].
  destruct (GitTools.returncode (git _ ["git"; "diff"; _]) =? 0);
    [|split; [reflexivity | discriminate]].
  cbn [mbind result_bind].
  destruct (GitTools.parse_changed_files _ _); [|split; [reflexivity | discriminate]].
  cbn [mbind result_bind].
  destruct (GitTools._summarize_changes _); [|split; [reflexivity | discriminate]].
  cbn. fold full_diff. rewrite (Hkeep full_diff) by assumption.
  split; [apply Nat.ltb_irrefl | reflexivity].
Qed.

(** C4, on a sample repository. *)
Lemma truncate_diff_within_budget_witness :
  GitTools._truncate_diff ("ab" +:+ String Py.nl "cd") 5 = "ab" +:+ String Py.nl "cd"
  /\ GitTools.truncated
       (GitTools.get_file_changes Samples.small_git Samples.here "main" 25000) = false.
Proof.
  split.
  - apply (proj1 truncate_diff_within_budget). vm_compute. discriminate.
  - apply (proj2 truncate_diff_within_budget Samples.small_git Samples.here "main" 25000).
    vm_compute. discriminate.
Defined.

(** ** Status classification *)

(** Outside the format of the listing: [status[0]] raises on an empty
    status, which the parser takes from a line that starts with a tab. *)
Lemma get_change_type_empty_token_raises :
  Py.split Py.tab (String Py.tab "b.py") = [EmptyString; "b.py"]
  /\ GitTools._get_change_type EmptyString
     = Raise (IndexError "string index out of range")
  /\ GitTools.parse_changed_files
       ["M" +:+ String Py.tab "a.py"; String Py.tab "b.py"] []
     = Raise (IndexError "string index out of range").
Proof. repeat split. Qed.


(** ** Failure of the version-control tool *)

Module ReportFacts.

Import GitTools.

Lemma run_git_failure git self (command : list string) :
  returncode (git (repo_path self) ("git" :: command)) <> 0 ->
  _run_git_command git self command
  = Raise (Exception ("Git command failed: "
                      +:+ stderr (git (repo_path self) ("git" :: command)))).
Proof.
  intros H. unfold _run_git_command.
  destruct (Z.eqb_spec (returncode (git (repo_path self) ("git" :: command))) 0);
    [contradiction | reflexivity].
Qed.

(** When one of the three queries exits non-zero the body raises, with
    the message of the first one that does. *)
Lemma file_changes_body_failure git self (target_branch : string) (max_tokens : Z) :
  (exists argv, In argv (diff_commands target_branch)
                /\ returncode (git (repo_path self) argv) <> 0) ->
  exists err : string,
    file_changes_body git self target_branch max_tokens
    = Raise (Exception ("Git command failed: " +:+ err)).
Proof.
  intros (argv & Hin & Hfail). unfold file_changes_body, _run_git_command.
  destruct (Z.eqb_spec (returncode (git (repo_path self)
              ["git"; "diff"; "--name-status"; target_branch +:+ "...HEAD"])) 0) as [E1|E1];
    [|eexists; reflexivity].
  cbn [mbind result_bind].
  destruct (Z.eqb_spec (returncode (git (repo_path self)
              ["git"; "diff"; "--stat"; target_branch +:+ "...HEAD"])) 0) as [E2|E2];
    [|eexists; reflexivity].
  cbn [mbind result_bind].
  destruct (Z.eqb_spec (returncode (git (repo_path self)
              ["git"; "diff"; target_branch +:+ "...HEAD"])) 0) as [E3|E3];
    [|eexists; reflexivity].
  exfalso. simpl in Hin.
  destruct Hin as [<-|[<-|[<-|[]]]]; contradiction.
Qed.

(** The success path returns all eight keys and no [error]. *)
Lemma file_changes_body_keys git self (target_branch : string) (max_tokens : Z)
    (r : ChangeReport) :
  file_changes_body git self target_branch max_tokens = Ok r ->
  report_keys r
  = ["branch_comparison"; "total_files_changed"; "file_changes"; "diff_stats";
     "diff_content"; "truncated"; "original_diff_size"; "change_summary"].
Proof.
  unfold file_changes_body. intros H.
  repeat match type of H with
         | context [_run_git_command ?g ?s ?c] =>
             destruct (_run_git_command g s c);
             cbn [mbind result_bind] in H; [|discriminate H]
         end.
  destruct (parse_changed_files _ _); cbn [mbind result_bind] in H; [|discriminate H].
  destruct (_summarize_changes _); cbn [mbind result_bind] in H; [|discriminate H].
  injection H as <-. reflexivity.
Qed.

End ReportFacts.

(** C3, as the specification words it, fails on the shape: the report of
    the failure path has no [original_diff_size] and no
    [change_summary], which every report of the success path carries. *)
Lemma error_report_shape_differs :
  let failed := GitTools.get_file_changes Samples.failing_git Samples.here "main" 25000 in
  let passed := GitTools.get_file_changes Samples.small_git Samples.here "main" 25000 in
  GitTools.returncode
    (Samples.failing_git "/repo" ["git"; "diff"; "--name-status"; "main...HEAD"]) <> 0
  /\ GitTools.error passed = None
  /\ GitTools.report_keys passed
     = ["branch_comparison"; "total_files_changed"; "file_changes"; "diff_stats";
        "diff_content"; "truncated"; "original_diff_size"; "change_summary"]
  /\ GitTools.report_keys failed
     = ["error"; "branch_comparison"; "total_files_changed"; "file_changes";
        "diff_stats"; "diff_content"; "truncated"]
  /\ ~ GitTools.same_shape failed passed.
Proof.
  cbv zeta.
  split; [discriminate |]. split; [reflexivity |].
  split; [reflexivity |]. split; [reflexivity |].
  intros H.
  destruct (H "change_summary" ltac:(discriminate)) as [_ Hback].
  assert (Hin : In "change_summary"
                  (GitTools.report_keys
                     (GitTools.get_file_changes Samples.failing_git Samples.here
                        "main" 25000))).
  { apply Hback. vm_compute. tauto. }
  vm_compute in Hin.
  repeat (destruct Hin as [Hin|Hin]; [discriminate Hin |]). exact Hin.
Qed.

(** C3.  When one of the three queries exits non-zero, [get_file_changes]
    returns a report: its [error] is a non-empty message, the revision
    range is kept, the count is 0, the list and the two texts are empty
    and [truncated] is false.  Of the keys of the success path it has
    those six and not [original_diff_size] nor [change_summary]. *)
Theorem get_file_changes_tool_failure git self (target_branch : string) (max_tokens : Z) :
  (exists argv, In argv (GitTools.diff_commands target_branch)
                /\ GitTools.returncode (git (GitTools.repo_path self) argv) <> 0) ->
  let report := GitTools.get_file_changes git self target_branch max_tokens in
  (exists msg, GitTools.error report = Some msg /\ msg <> EmptyString)
  /\ GitTools.branch_comparison report = target_branch +:+ "...HEAD"
  /\ GitTools.total_files_changed report = 0%nat
  /\ GitTools.file_changes report = []
  /\ GitTools.diff_stats report = EmptyString
  /\ GitTools.diff_content report = EmptyString
  /\ GitTools.truncated report = false
  /\ GitTools.original_diff_size report = None
  /\ GitTools.change_summary report = None
  /\ GitTools.report_keys report
     = ["error"; "branch_comparison"; "total_files_changed"; "file_changes";
        "diff_stats"; "diff_content"; "truncated"].
Proof.
  intros Hfail report. subst report. unfold GitTools.get_file_changes.
  destruct (ReportFacts.file_changes_body_failure git self target_branch max_tokens Hfail)
    as [err ->].
  cbn. split; [|repeat split].
  eexists. split; [reflexivity | discriminate].
Qed.

(** C3 on a tool that fails every invocation. *)
Lemma get_file_changes_tool_failure_witness :
  GitTools.returncode
    (Samples.failing_git "/repo" ["git"; "diff"; "--name-status"; "main...HEAD"]) <> 0
  /\ GitTools.error (GitTools.get_file_changes Samples.failing_git Samples.here "main" 25000)
     = Some "Git command failed: fatal: not a git repository"
  /\ GitTools.total_files_changed
       (GitTools.get_file_changes Samples.failing_git Samples.here "main" 25000) = 0%nat.
Proof.
  assert (Hfail : exists argv,
             In argv (GitTools.diff_commands "main")
             /\ GitTools.returncode
                  (Samples.failing_git (GitTools.repo_path Samples.here) argv) <> 0).
  { eexists. split; [left; reflexivity | discriminate]. }
  pose proof (get_file_changes_tool_failure Samples.failing_git Samples.here "main" 25000
                Hfail) as H.
  split; [discriminate |]. split; [reflexivity |].
  exact (proj1 (proj2 (proj2 H))).
Defined.

(** ** The commit log *)

Module LogFacts.

Import Py PyFacts GitTools.

Lemma truthy_strip (line : string) : truthy (strip line) = negb (all_space line).
Proof.
  destruct (all_space line) eqn:E.
  - apply strip_empty in E. now rewrite E.
  - destruct (truthy (strip line)) eqn:T; [reflexivity |].
    apply truthy_false, strip_empty in T. congruence.
Qed.

(** The loop appends, line by line, what each line contributes. *)
Lemma parse_log_lines_flat_map (lines : list string) :
  forall commits,
    parse_log_lines lines commits = commits ++ flat_map commit_of_line lines.
Proof.
  induction lines as [|line rest IH]; intros commits; simpl.
  - now rewrite List.app_nil_r.
  - unfold commit_of_line at 1. rewrite truthy_strip.
    destruct (all_space line); simpl; [apply IH |].
    destruct (split "|" line) as [|p0 [|p1 [|p2 [|p3 tl]]]]; simpl; try apply IH.
    rewrite IH, <- List.app_assoc. reflexivity.
Qed.

(** A one-character needle. *)
Lemma contains_char_cons (c d : ascii) (s : string) :
  contains (String c EmptyString) (String d s)
  = Ascii.eqb d c || contains (String c EmptyString) s.
Proof.
  rewrite contains_unfold. simpl String.prefix.
  destruct (ascii_dec c d) as [->|Hne].
  - rewrite Ascii.eqb_refl. now destruct s.
  - destruct (Ascii.eqb_spec d c); [congruence | reflexivity].
Qed.

Lemma split_without_sep (sep : ascii) (s : string) :
  contains (String sep EmptyString) s = false -> split sep s = [s].
Proof.
  induction s as [|c s IH]; [reflexivity |].
  rewrite contains_char_cons. intros H. apply orb_false_iff in H as [Hc Hs].
  simpl. rewrite Hc, (IH Hs). reflexivity.
Qed.

Lemma split_field (sep : ascii) (field rest : string) :
  contains (String sep EmptyString) field = false ->
  split sep (field +:+ String sep EmptyString +:+ rest) = field :: split sep rest.
Proof.
  rewrite sapp_cons, sapp_nil. induction field as [|c field IH].
  - intros _. rewrite sapp_nil. simpl. now rewrite Ascii.eqb_refl.
  - rewrite contains_char_cons. intros H. apply orb_false_iff in H as [Hc Hs].
    rewrite sapp_cons. simpl. rewrite Hc, (IH Hs). reflexivity.
Qed.

End LogFacts.

(** C9.  When the log query exits non-zero the result is the one error
    record.  Otherwise the result lists, in order, what each line of the
    output contributes: nothing for a blank line or a line of fewer than
    four pipe-separated fields, and for a line [hash|message|author|date]
    the record of these four fields. *)
Theorem get_commit_messages_parses git self (target_branch : string) (limit : Z) :
  let p := git (GitTools.repo_path self) (GitTools.log_command target_branch limit) in
  (GitTools.returncode p <> 0 ->
   GitTools.get_commit_messages git self target_branch limit
   = [GitTools.CommitError ("Git command failed: " +:+ GitTools.stderr p)])
  /\ (GitTools.returncode p = 0 ->
      GitTools.get_commit_messages git self target_branch limit
      = flat_map GitTools.commit_of_line (Py.split Py.nl (Py.strip (GitTools.stdout p))))
  /\ (forall line, Py.all_space line = true -> GitTools.commit_of_line line = [])
  /\ (forall line, (length (Py.split "|" line) < 4)%nat -> GitTools.commit_of_line line = [])
  /\ (forall hash message author date : string,
         Py.contains "|" hash = false ->
         Py.contains "|" message = false ->
         Py.contains "|" author = false ->
         Py.contains "|" date = false ->
         Py.all_space (hash +:+ "|" +:+ message +:+ "|" +:+ author +:+ "|" +:+ date) = false ->
         GitTools.commit_of_line
           (hash +:+ "|" +:+ message +:+ "|" +:+ author +:+ "|" +:+ date)
         = [GitTools.Commit hash message author date]).
Proof.
  intros p. subst p.
  unfold GitTools.get_commit_messages, GitTools._run_git_command, GitTools.log_command.
  split; [|split; [|split; [|split]]].
  - intros H. destruct (Z.eqb_spec (GitTools.returncode (git (GitTools.repo_path self)
        ["git"; "log"; target_branch +:+ "...HEAD"; "--pretty=format:%H|%s|%an|%ad";
         "--date=short"; "-" +:+ Py.str_int limit])) 0); [contradiction | reflexivity].
  - intros ->. cbn [Z.eqb]. apply LogFacts.parse_log_lines_flat_map.
  - intros line H. unfold GitTools.commit_of_line. now rewrite H.
  - intros line H. unfold GitTools.commit_of_line.
    destruct (Py.all_space line); [reflexivity |].
    destruct (Py.split "|" line) as [|p0 [|p1 [|p2 [|p3 tl]]]]; try reflexivity.
    simpl in H. lia.
  - intros hash message author date Hh Hm Ha Hd Hns.
    unfold GitTools.commit_of_line. rewrite Hns.
    rewrite !(LogFacts.split_field "|") by assumption.
    rewrite (LogFacts.split_without_sep "|" date Hd). reflexivity.
Qed.

(** C9 on a failing tool and on a three-line log: the middle line has no
    pipe and is dropped, and the last line has five fields, of which the
    first four are taken. *)
Lemma get_commit_messages_parses_witness :
  GitTools.get_commit_messages Samples.failing_git Samples.here "main" 5
  = [GitTools.CommitError "Git command failed: fatal: not a git repository"]
  /\ GitTools.get_commit_messages Samples.small_git Samples.here "main" 5
     = [GitTools.Commit "1f3a" "Fix typo" "Ada" "2025-06-01";
        GitTools.Commit "9c2e" "Add a" "b option" "Bob"]
  /\ GitTools.commit_of_line "abc|fix the parser|Ada|2025-06-01"
     = [GitTools.Commit "abc" "fix the parser" "Ada" "2025-06-01"].
Proof.
  split; [|split].
  - apply (proj1 (get_commit_messages_parses Samples.failing_git Samples.here "main" 5)).
    discriminate.
  - rewrite (proj1 (proj2 (get_commit_messages_parses Samples.small_git Samples.here
                             "main" 5)) eq_refl).
    reflexivity.
  - apply (proj2 (proj2 (proj2 (proj2
             (get_commit_messages_parses Samples.small_git Samples.here "main" 5))))
             "abc" "fix the parser" "Ada" "2025-06-01"); reflexivity.
Defined.

(** ** The change summary *)

Module SummaryFacts.

Import Py PyFacts GitTools.

Lemma bump_bump (m n : nat) (entry : option nat) :
  bump n (bump m entry) = bump (m + n) entry.
Proof.
  unfold bump. destruct m, n; simpl; try reflexivity.
  - now rewrite Nat.add_0_r.
  - f_equal. lia.
Qed.

Lemma count_change_type_wf (kind : string) (s : Summary) :
  In kind change_kinds ->
  exists s',
    count_change_type kind s = Ok s'
    /\ file_types s' = file_types s
    /\ directories s' = directories s
    /\ (added s' + modified s' + deleted s' + renamed s'
        <= S (added s + modified s + deleted s + renamed s))%nat.
Proof.
  unfold change_kinds. simpl. intros H.
  repeat (destruct H as [<-|H];
          [eexists; split; [reflexivity | simpl; repeat split; lia] |]).
  destruct H.
Qed.

Lemma track_extension_entry (fn ext : string) (s : Summary) :
  file_types (track_extension fn s) !! ext
  = bump (if contains "." fn && String.eqb (List.last (split "." fn) EmptyString) ext
          then 1 else 0)
      (file_types s !! ext).
Proof.
  unfold track_extension, bump.
  destruct (contains "." fn); simpl; [|reflexivity].
  destruct (String.eqb_spec (List.last (split "." fn) EmptyString) ext) as [->|Hne]; simpl.
  - now rewrite lookup_insert_eq.
  - now rewrite lookup_insert_ne.
Qed.

Lemma track_extension_frame (fn : string) (s : Summary) :
  directories (track_extension fn s) = directories s
  /\ added (track_extension fn s) = added s
  /\ modified (track_extension fn s) = modified s
  /\ deleted (track_extension fn s) = deleted s
  /\ renamed (track_extension fn s) = renamed s.
Proof. unfold track_extension. destruct (contains "." fn); simpl; tauto. Qed.

Lemma track_directory_entry (fn d : string) (s : Summary) :
  d ∈ directories (track_directory fn s)
  <-> d ∈ directories s \/ (d <> EmptyString /\ dirname fn = d).
Proof.
  unfold track_directory. destruct (truthy (dirname fn)) eqn:E; simpl.
  - rewrite elem_of_union, elem_of_singleton. split.
    + intros [->|H]; [right | now left]. split; [|reflexivity].
      intros H. rewrite H in E. discriminate.
    + intros [H|[_ <-]]; tauto.
  - apply truthy_false in E. split; [tauto |].
    intros [H|[Hne <-]]; [assumption | contradiction].
Qed.

Lemma track_directory_frame (fn : string) (s : Summary) :
  file_types (track_directory fn s) = file_types s
  /\ added (track_directory fn s) = added s
  /\ modified (track_directory fn s) = modified s
  /\ deleted (track_directory fn s) = deleted s
  /\ renamed (track_directory fn s) = renamed s.
Proof. unfold track_directory. destruct (truthy (dirname fn)); simpl; tauto. Qed.

(** The invariant of the loop, from any starting summary. *)
Lemma summarize_loop_spec (changes : list FileChange) :
  forall s0,
    Forall wf_change changes ->
    exists s,
      summarize_loop changes s0 = Ok s
      /\ (added s + modified s + deleted s + renamed s
          <= added s0 + modified s0 + deleted s0 + renamed s0 + length changes)%nat
      /\ (forall ext,
             file_types s !! ext
             = bump (length (List.filter (has_extension ext) changes))
                 (file_types s0 !! ext))
      /\ (forall d,
             d ∈ directories s
             <-> d ∈ directories s0
                 \/ (d <> EmptyString
                     /\ exists c, In c changes /\ dirname (filename c) = d)).
Proof.
  induction changes as [|c rest IH]; intros s0 Hwf.
  - exists s0. simpl. repeat split; try lia; try tauto.
    intros [H|(_ & c & [] & _)]. exact H.
  - inversion Hwf as [|? ? Hc Hrest]; subst.
    destruct (count_change_type_wf (change_type c) s0 Hc)
      as (s1 & Hs1 & Hft & Hdir & Hsum).
    simpl summarize_loop. rewrite Hs1. cbn [mbind result_bind].
    destruct (IH (track_directory (filename c) (track_extension (filename c) s1)) Hrest)
      as (s & Hs & Hcount & Hext & Hdirs).
    exists s. split; [exact Hs |].
    destruct (track_directory_frame (filename c) (track_extension (filename c) s1))
      as (Eft & Ea & Em & Ed & Er).
    destruct (track_extension_frame (filename c) s1) as (Edir & Ea' & Em' & Ed' & Er').
    split; [|split].
    + rewrite Ea, Em, Ed, Er, Ea', Em', Ed', Er' in Hcount. simpl length. lia.
    + intros ext. rewrite Hext, Eft, track_extension_entry, Hft, bump_bump.
      f_equal. simpl List.filter. unfold has_extension at 2.
      destruct (contains "." (filename c)
                && String.eqb (List.last (split "." (filename c)) EmptyString) ext);
        reflexivity.
    + intros d. rewrite Hdirs, track_directory_entry, Edir, Hdir. split.
      * intros [[H|[Hne Hd]]|(Hne & c' & Hin & Hd)].
        -- now left.
        -- right. split; [assumption |]. exists c. split; [now left | assumption].
        -- right. split; [assumption |]. exists c'. split; [now right | assumption].
      * intros [H|(Hne & c' & [<-|Hin] & Hd)].
        -- left. now left.
        -- left. right. split; assumption.
        -- right. split; [assumption |]. exists c'. split; assumption.
Qed.

(** The entries the listing parser appends are well formed. *)
Lemma parse_changed_files_wf (lines : list string) :
  forall acc out,
    Forall wf_change acc ->
    parse_changed_files lines acc = Ok out ->
    Forall wf_change out.
Proof.
  induction lines as [|line rest IH]; intros acc out Hacc H; simpl in H.
  - now injection H as <-.
  - destruct (truthy (strip line)); [|eapply IH; eassumption].
    destruct (split tab line) as [|st [|fn tl]]; try (eapply IH; eassumption).
    destruct st as [|c st]; [discriminate H |].
    cbn [_get_change_type mbind result_bind] in H.
    eapply IH; [|exact H].
    apply Forall_app. split; [assumption |]. constructor; [|constructor].
    unfold wf_change, change_kinds, status_map_get, status_map. cbn [change_type].
    repeat (destruct (Ascii.eqb _ c); [simpl; tauto |]). simpl; tauto.
Qed.

End SummaryFacts.

(** C5.  For a sequence of changes of the enumerated kinds the summary is
    computed, its four counters add up to at most the number of changes,
    the entry of an extension counts exactly the filenames that contain
    a dot and end in it (so a filename without a dot contributes to no
    entry), and the directories are exactly the non-empty parent
    directories of the filenames. *)
Theorem summarize_changes_invariants (changes : list GitTools.FileChange) :
  Forall GitTools.wf_change changes ->
  exists s,
    GitTools._summarize_changes changes = Ok s
    /\ (GitTools.added s + GitTools.modified s + GitTools.deleted s + GitTools.renamed s
        <= length changes)%nat
    /\ (forall ext,
           GitTools.file_types s !! ext
           = let n := length (List.filter (GitTools.has_extension ext) changes) in
             if (n =? 0)%nat then None else Some n)
    /\ (forall ext,
           is_Some (GitTools.file_types s !! ext) ->
           exists c, In c changes
                     /\ Py.contains "." (GitTools.filename c) = true
                     /\ List.last (Py.split "." (GitTools.filename c)) EmptyString = ext)
    /\ (forall d,
           d ∈ GitTools.directories s
           <-> d <> EmptyString
               /\ exists c, In c changes /\ GitTools.dirname (GitTools.filename c) = d).
Proof.
  intros Hwf.
  destruct (SummaryFacts.summarize_loop_spec changes GitTools.empty_summary Hwf)
    as (s & Hs & Hcount & Hext & Hdirs).
  exists s. split; [exact Hs |]. split; [simpl in Hcount; lia |].
  assert (Hentry : forall ext,
             GitTools.file_types s !! ext
             = let n := length (List.filter (GitTools.has_extension ext) changes) in
               if (n =? 0)%nat then None else Some n).
  { intros ext. rewrite Hext. unfold GitTools.bump. simpl GitTools.file_types.
    rewrite lookup_empty. reflexivity. }
  split; [exact Hentry |]. split.
  - intros ext [n Hn]. rewrite Hentry in Hn. cbv zeta in Hn.
    destruct (List.filter (GitTools.has_extension ext) changes) as [|c l] eqn:E;
      [discriminate Hn |].
    assert (Hin : In c (List.filter (GitTools.has_extension ext) changes))
      by (rewrite E; now left).
    apply List.filter_In in Hin as [Hin Hc]. unfold GitTools.has_extension in Hc.
    apply andb_true_iff in Hc as [Hdot Hlast]. apply String.eqb_eq in Hlast.
    exists c. repeat split; assumption.
  - intros d. rewrite Hdirs. simpl GitTools.directories. split.
    + intros [H|H]; [|exact H]. exfalso. revert H. apply not_elem_of_empty.
    + intros H. now right.
Qed.

(** C5 on three changes: a modified file in a directory, an added file
    at the root, a renamed file without a dot. *)
Lemma summarize_changes_invariants_witness :
  let changes :=
    [{| GitTools.status := "M"; GitTools.filename := "src/a.py";
        GitTools.change_type := "modified" |};
     {| GitTools.status := "A"; GitTools.filename := "README.md";
        GitTools.change_type := "added" |};
     {| GitTools.status := "C75"; GitTools.filename := "Makefile";
        GitTools.change_type := "copied" |}] in
  Forall GitTools.wf_change changes
  /\ exists s,
       GitTools._summarize_changes changes = Ok s
       /\ (GitTools.added s + GitTools.modified s + GitTools.deleted s
           + GitTools.renamed s <= 3)%nat
       /\ GitTools.file_types s !! "Makefile" = None
       /\ "src" ∈ GitTools.directories s.
Proof.
  cbv zeta.
  assert (Hwf : Forall GitTools.wf_change
                  [{| GitTools.status := "M"; GitTools.filename := "src/a.py";
                      GitTools.change_type := "modified" |};
                   {| GitTools.status := "A"; GitTools.filename := "README.md";
                      GitTools.change_type := "added" |};
                   {| GitTools.status := "C75"; GitTools.filename := "Makefile";
                      GitTools.change_type := "copied" |}]).
  { repeat constructor; unfold GitTools.wf_change; simpl; tauto. }
  split; [exact Hwf |].
  destruct (summarize_changes_invariants _ Hwf) as (s & Hs & Hcount & Hext & _ & Hdirs).
  exists s. split; [exact Hs |]. split; [exact Hcount |]. split.
  - rewrite Hext. reflexivity.
  - apply Hdirs. split; [discriminate |].
    eexists. split; [left; reflexivity | reflexivity].
Defined.

(** ** The suggestion engine *)

Module SuggestFacts.

Import Py PyFacts Templates.

Lemma any_in_iff (words : list string) (s : string) :
  any_in words s = true
  <-> exists w, In w words /\ exists pre post, s = pre +:+ w +:+ post.
Proof.
  unfold any_in. rewrite existsb_exists. split.
  - intros (w & Hin & Hc). exists w. split; [assumption |]. now apply contains_iff.
  - intros (w & Hin & Hc). exists w. split; [assumption |]. now apply contains_iff.
Qed.

(** A filename with the suffix [.md], in whatever case the stem is
    written, falls into the documentation bucket. *)
Lemma md_is_doc (stem : string) :
  any_in doc_markers (lower (stem +:+ ".md")) = true.
Proof.
  apply any_in_iff. exists ".md". split; [left; reflexivity |].
  exists (lower stem), EmptyString. now rewrite lower_app.
Qed.

(** One step of the classification: a documentation file adds one to
    the documentation count and nothing to the code count; any other
    file leaves the documentation count and adds at most one to the
    code count. *)
Lemma classify_step (filename : string) (b : Buckets) :
  let d := if any_in doc_markers (lower filename) then 1%nat else 0%nat in
  doc_files (classify filename b) = (doc_files b + d)%nat
  /\ (code_files (classify filename b) <= code_files b + (1 - d))%nat.
Proof.
  unfold classify. cbv zeta.
  destruct (any_in doc_markers (lower filename)),
           (any_in test_markers (lower filename)),
           (any_in config_markers (lower filename));
    cbn [doc_files code_files]; lia.
Qed.

Section Rules.

Context {Dict : Type}.
Variable file_changes_of : Dict -> list GitTools.FileChange.
Variable py_str : Dict -> string.

(** The ranking in terms of the outcome of its four tests. *)
Lemma suggestions_ranked (ca : Dict) :
  let s := get_template_suggestions file_changes_of py_str ca in
  let b := classify_loop (file_changes_of ca)
             {| doc_files := 0; code_files := 0; config_files := 0; test_files := 0 |} in
  (primary_suggestions s, secondary_suggestions s)
  = if (length (file_changes_of ca) =? 0)%nat then (["feature"], [])
    else if (code_files b <? doc_files b)%nat then (["docs"], ["feature"])
    else if any_in ["fix"; "bug"; "error"; "issue"] (lower (py_str ca))
    then (["bugfix"], ["feature"])
    else if any_in ["critical"; "urgent"; "hotfix"; "production"] (lower (py_str ca))
    then (["hotfix"], ["bugfix"])
    else (["feature"], ["docs"; "bugfix"]).
Proof.
  cbv zeta. unfold get_template_suggestions.
  destruct (length (file_changes_of ca) =? 0)%nat; [reflexivity |].
  destruct (code_files _ <? doc_files _)%nat; [reflexivity |].
  destruct (any_in ["fix"; "bug"; "error"; "issue"] _); [reflexivity |].
  destruct (any_in ["critical"; "urgent"; "hotfix"; "production"] _); reflexivity.
Qed.

End Rules.

End SuggestFacts.

(** C6.  The rules of the suggestion engine, first match first: no file
    gives [feature]; else more documentation files than code files gives
    [docs] then [feature]; else a rendering that, in lower case, has one
    of fix, bug, error, issue as a factor gives [bugfix] then [feature];
    else one that has one of critical, urgent, hotfix, production gives
    [hotfix] then [bugfix]; else [feature] then [docs, bugfix].  Three
    files of which two end in [.md] and one in [.py], in any order, give
    [docs] then [feature]. *)
Theorem suggestion_rules (Dict : Type)
    (file_changes_of : Dict -> list GitTools.FileChange) (py_str : Dict -> string)
    (ca : Dict) :
  let s := Templates.get_template_suggestions file_changes_of py_str ca in
  let b := Templates.classify_loop (file_changes_of ca)
             {| Templates.doc_files := 0; Templates.code_files := 0;
                Templates.config_files := 0; Templates.test_files := 0 |} in
  let mentions (words : list string) :=
    exists w, In w words /\ exists pre post, Py.lower (py_str ca) = pre +:+ w +:+ post in
  let ranked (primary secondary : list string) :=
    Templates.primary_suggestions s = primary
    /\ Templates.secondary_suggestions s = secondary in
  (file_changes_of ca = [] -> ranked ["feature"] [])
  /\ (file_changes_of ca <> [] ->
      (Templates.code_files b < Templates.doc_files b)%nat ->
      ranked ["docs"] ["feature"])
  /\ (file_changes_of ca <> [] ->
      (Templates.doc_files b <= Templates.code_files b)%nat ->
      mentions ["fix"; "bug"; "error"; "issue"] ->
      ranked ["bugfix"] ["feature"])
  /\ (file_changes_of ca <> [] ->
      (Templates.doc_files b <= Templates.code_files b)%nat ->
      ~ mentions ["fix"; "bug"; "error"; "issue"] ->
      mentions ["critical"; "urgent"; "hotfix"; "production"] ->
      ranked ["hotfix"] ["bugfix"])
  /\ (file_changes_of ca <> [] ->
      (Templates.doc_files b <= Templates.code_files b)%nat ->
      ~ mentions ["fix"; "bug"; "error"; "issue"] ->
      ~ mentions ["critical"; "urgent"; "hotfix"; "production"] ->
      ranked ["feature"] ["docs"; "bugfix"])
  /\ (forall (i j k : nat) (doc1 doc2 code : string),
         length (file_changes_of ca) = 3%nat ->
         i <> j -> i <> k -> j <> k ->
         map GitTools.filename (file_changes_of ca) !! i = Some (doc1 +:+ ".md") ->
         map GitTools.filename (file_changes_of ca) !! j = Some (doc2 +:+ ".md") ->
         map GitTools.filename (file_changes_of ca) !! k = Some (code +:+ ".py") ->
         ranked ["docs"] ["feature"]).
Proof.
  intros s b mentions ranked.
  pose proof (SuggestFacts.suggestions_ranked file_changes_of py_str ca) as Hrank.
  cbv zeta in Hrank. fold s b in Hrank.
  assert (Hpair : forall p q,
             (Templates.primary_suggestions s, Templates.secondary_suggestions s) = (p, q) ->
             ranked p q).
  { intros p q [= Hp Hq]. split; assumption. }
  assert (Hlen : file_changes_of ca <> [] ->
                 (length (file_changes_of ca) =? 0)%nat = false).
  { intros H. apply Nat.eqb_neq. destruct (file_changes_of ca); [congruence | discriminate]. }
  assert (Hyes : forall words, mentions words <-> Py.any_in words (Py.lower (py_str ca)) = true).
  { intros words. symmetry. apply SuggestFacts.any_in_iff. }
  assert (Hno : forall words,
             ~ mentions words -> Py.any_in words (Py.lower (py_str ca)) = false).
  { intros words H. apply not_true_is_false. intros E. apply H, Hyes, E. }
  assert (Hdocs : (Templates.code_files b < Templates.doc_files b)%nat ->
                  file_changes_of ca <> [] -> ranked ["docs"] ["feature"]).
  { intros Hlt Hne. apply Hpair. rewrite Hrank, (Hlen Hne).
    apply Nat.ltb_lt in Hlt. now rewrite Hlt. }
  split; [|split; [|split; [|split; [|split]]]].
  - intros E. apply Hpair. rewrite Hrank, E. reflexivity.
  - intros Hne Hlt. now apply Hdocs.
  - intros Hne Hle Hm. apply Hpair. rewrite Hrank, (Hlen Hne).
    apply Nat.ltb_ge in Hle. rewrite Hle. apply Hyes in Hm. now rewrite Hm.
  - intros Hne Hle Hn Hm. apply Hpair. rewrite Hrank, (Hlen Hne).
    apply Nat.ltb_ge in Hle. rewrite Hle, (Hno _ Hn). apply Hyes in Hm. now rewrite Hm.
  - intros Hne Hle Hn1 Hn2. apply Hpair. rewrite Hrank, (Hlen Hne).
    apply Nat.ltb_ge in Hle. now rewrite Hle, (Hno _ Hn1), (Hno _ Hn2).
  - intros i j k doc1 doc2 code Hthree Hij Hik Hjk Hi Hj Hk.
    assert (Hne : file_changes_of ca <> []).
    { intros E. rewrite E in Hthree. discriminate. }
    apply Hdocs; [|exact Hne]. subst b.
    destruct (file_changes_of ca) as [|x [|y [|z [|]]]]; try discriminate Hthree.
    cbn [Templates.classify_loop].
    set (b0 := {| Templates.doc_files := 0; Templates.code_files := 0;
                  Templates.config_files := 0; Templates.test_files := 0 |}).
    destruct (SuggestFacts.classify_step (GitTools.filename x) b0) as [Dx Cx].
    destruct (SuggestFacts.classify_step (GitTools.filename y)
                (Templates.classify (GitTools.filename x) b0)) as [Dy Cy].
    destruct (SuggestFacts.classify_step (GitTools.filename z)
                (Templates.classify (GitTools.filename y)
                   (Templates.classify (GitTools.filename x) b0))) as [Dz Cz].
    change (Templates.doc_files b0) with 0%nat in Dx.
    change (Templates.code_files b0) with 0%nat in Cx.
    pose proof (SuggestFacts.md_is_doc doc1) as M1.
    pose proof (SuggestFacts.md_is_doc doc2) as M2.
    destruct i as [|[|[|i]]], j as [|[|[|j]]]; cbn in Hi, Hj;
      try congruence; try discriminate Hi; try discriminate Hj;
      injection Hi as Hi; injection Hj as Hj;
      rewrite <- Hi in M1; rewrite <- Hj in M2;
      rewrite ?M1, ?M2 in Dx, Cx, Dy, Cy, Dz, Cz;
      destruct (Py.any_in Templates.doc_markers (Py.lower (GitTools.filename x)));
      destruct (Py.any_in Templates.doc_markers (Py.lower (GitTools.filename y)));
      destruct (Py.any_in Templates.doc_markers (Py.lower (GitTools.filename z)));
      try discriminate M1; try discriminate M2; lia.
Qed.

(** C6 on five inputs, one for each rule; the second one is the
    scenario of two [.md] files and one [.py] file. *)
Lemma suggestion_rules_witness :
  let suggest := Templates.get_template_suggestions (fun ca => ca) SuggestSamples.render in
  let ranked (changes : list GitTools.FileChange) (primary secondary : list string) :=
    Templates.primary_suggestions (suggest changes) = primary
    /\ Templates.secondary_suggestions (suggest changes) = secondary in
  ranked [] ["feature"] []
  /\ ranked SuggestSamples.docs_heavy ["docs"] ["feature"]
  /\ ranked [SuggestSamples.modified_file "src/fix_login.py"] ["bugfix"] ["feature"]
  /\ ranked [SuggestSamples.modified_file "src/production.py"] ["hotfix"] ["bugfix"]
  /\ ranked [SuggestSamples.modified_file "src/main.py"] ["feature"] ["docs"; "bugfix"].
Proof.
  cbv zeta.
  assert (Hnot : forall words text,
             Py.any_in words text = false ->
             ~ (exists w, In w words /\ exists pre post, text = pre +:+ w +:+ post)).
  { intros words text E H. apply SuggestFacts.any_in_iff in H. congruence. }
  split; [|split; [|split; [|split]]].
  - apply (proj1 (suggestion_rules _ (fun ca => ca) SuggestSamples.render [])).
    reflexivity.
  - apply (proj2 (proj2 (proj2 (proj2 (proj2
             (suggestion_rules _ (fun ca => ca) SuggestSamples.render
                SuggestSamples.docs_heavy)))))
             0%nat 2%nat 1%nat "README" "docs/guide" "src/main");
      try reflexivity; discriminate.
  - apply (proj1 (proj2 (proj2
             (suggestion_rules _ (fun ca => ca) SuggestSamples.render
                [SuggestSamples.modified_file "src/fix_login.py"])))).
    + discriminate.
    + vm_compute. lia.
    + exists "fix". split; [left; reflexivity |].
      exists "src/", "_login.py". reflexivity.
  - apply (proj1 (proj2 (proj2 (proj2
             (suggestion_rules _ (fun ca => ca) SuggestSamples.render
                [SuggestSamples.modified_file "src/production.py"]))))).
    + discriminate.
    + vm_compute. lia.
    + apply Hnot. reflexivity.
    + exists "production". split; [right; right; right; left; reflexivity |].
      exists "src/", ".py". reflexivity.
  - apply (proj1 (proj2 (proj2 (proj2 (proj2
             (suggestion_rules _ (fun ca => ca) SuggestSamples.render
                [SuggestSamples.modified_file "src/main.py"])))))).
    + discriminate.
    + vm_compute. lia.
    + apply Hnot. reflexivity.
    + apply Hnot. reflexivity.
Defined.

(** ** The template store and the validation tool *)

Module TemplateFacts.

Import Templates.

Section Store.

Variable title : string -> string.
Variable templates_dir : gmap string (string * FileRead).

Lemma get_template_lookup (template_name : string) :
  get_template title templates_dir template_name
  = templates_dir !! template_name ≫= load_template title template_name.
Proof. unfold get_template, get_all_templates. apply map_lookup_imap. Qed.

(** A template is found exactly when the directory has a file of
    that stem. *)
Lemma get_template_is_Some (template_name : string) :
  is_Some (get_template title templates_dir template_name)
  <-> is_Some (templates_dir !! template_name).
Proof.
  rewrite get_template_lookup.
  destruct (templates_dir !! template_name) as [[path read]|]; simpl.
  - split; intros _; eexists; reflexivity.
  - split; intros [x Hx]; discriminate Hx.
Qed.

(** The listing names every stem of the directory, once. *)
Lemma list_available_templates_spec :
  NoDup (list_available_templates title templates_dir)
  /\ forall template_name : string,
       template_name ∈ list_available_templates title templates_dir
       <-> is_Some (templates_dir !! template_name).
Proof.
  unfold list_available_templates. split.
  - apply NoDup_fst_map_to_list.
  - intros n. rewrite <- get_template_is_Some. unfold get_template.
    rewrite list_elem_of_fmap. split.
    + intros ([k v] & -> & Hin). apply elem_of_map_to_list in Hin.
      exists v. exact Hin.
    + intros [v Hv]. exists (n, v). split; [reflexivity |].
      now apply elem_of_map_to_list.
Qed.

End Store.

End TemplateFacts.

(** C7.  For a template name that resolves, the tool returns its
    validation payload, in which [has_description] holds exactly when
    the stripped description is not empty (that is, when the description
    has a character that is not white space), [reasonable_length]
    exactly when the length is between 11 and 4999, and
    [contains_checklist] exactly when the description has [- [ ]] or
    [- [x]] as a factor.  For the empty description the first two are
    false. *)
Theorem validate_basic_checks (title : string -> string)
    (templates_dir : gmap string (string * Templates.FileRead))
    (description template_name : string) (change_analysis : option Server.AnalysisResult)
    (template : Templates.Template) :
  Templates.get_template title templates_dir template_name = Some template ->
  exists checks note,
    Server.validate_pr_description title templates_dir description template_name
      change_analysis
    = Server.Validation template_name (Py.len description)
        (Templates.template_content template) change_analysis checks note
    /\ (Server.has_description checks = true <-> Py.strip description <> EmptyString)
    /\ (Server.has_description checks = true <-> Py.all_space description = false)
    /\ (Server.reasonable_length checks = true
        <-> (11 <= Py.len description <= 4999)%nat)
    /\ (Server.contains_checklist checks = true
        <-> (exists pre post, description = pre +:+ "- [ ]" +:+ post)
            \/ (exists pre post, description = pre +:+ "- [x]" +:+ post))
    /\ (description = EmptyString ->
        Server.has_description checks = false
        /\ Server.reasonable_length checks = false).
Proof.
  intros Hfound. unfold Server.validate_pr_description. rewrite Hfound.
  eexists. eexists. split; [reflexivity |]. cbn [Server.has_description
    Server.reasonable_length Server.contains_checklist].
  assert (Hstrip : (0 <? Py.len (Py.strip description))%nat = true
                   <-> Py.strip description <> EmptyString).
  { rewrite Nat.ltb_lt, <- PyFacts.len_zero. lia. }
  split; [exact Hstrip |]. split; [|split; [|split]].
  - rewrite Hstrip, PyFacts.strip_empty. now destruct (Py.all_space description).
  - rewrite andb_true_iff, !Nat.ltb_lt. lia.
  - rewrite orb_true_iff, !PyFacts.contains_iff. reflexivity.
  - intros ->. split; reflexivity.
Qed.

(** C7 on the empty description and on a short checklist, against the
    [feature] template of the sample directory. *)
Lemma validate_basic_checks_witness :
  exists checks1 checks2 note,
    Server.validate_pr_description Samples.title Samples.templates_dir
      EmptyString "feature" None
    = Server.Validation "feature" 0 "## Feature" None checks1 note
    /\ Server.has_description checks1 = false
    /\ Server.reasonable_length checks1 = false
    /\ Server.validate_pr_description Samples.title Samples.templates_dir
         "- [x] tests pass" "feature" None
       = Server.Validation "feature" 16 "## Feature" None checks2 note
    /\ Server.contains_checklist checks2 = true.
Proof.
  assert (Hfound : Templates.get_template Samples.title Samples.templates_dir "feature"
                   = Some (Templates.Loaded "## Feature" "templates/feature.md"
                             (Templates.metadata_get Templates.template_metadata "feature"
                                {| Templates.name := "feature";
                                   Templates.description := "Template for feature";
                                   Templates.suitable_for := [] |})))
    by (vm_compute; reflexivity).
  destruct (validate_basic_checks Samples.title Samples.templates_dir EmptyString
              "feature" None _ Hfound) as (c1 & n1 & E1 & _ & _ & _ & _ & Hempty).
  destruct (validate_basic_checks Samples.title Samples.templates_dir "- [x] tests pass"
              "feature" None _ Hfound) as (c2 & n2 & E2 & _ & _ & _ & Hlist & _).
  exists c1, c2, n1. split; [exact E1 |].
  split; [apply Hempty; reflexivity |]. split; [apply Hempty; reflexivity |].
  split.
  - rewrite E2. unfold Server.validate_pr_description in E1, E2.
    rewrite Hfound in E1, E2. injection E1 as _ <-. injection E2 as _ <-. reflexivity.
  - apply Hlist. right. exists EmptyString, " tests pass". reflexivity.
Defined.

(** C8.  For a name that has no file in the template directory,
    [get_template] returns nothing and the tool returns its failure
    payload: [valid] false, the message naming the template, and the
    listing, which names every template of the directory once. *)
Theorem unknown_template_reported (title : string -> string)
    (templates_dir : gmap string (string * Templates.FileRead)) (template_name : string) :
  templates_dir !! template_name = None ->
  Templates.get_template title templates_dir template_name = None
  /\ (forall (description : string) (change_analysis : option Server.AnalysisResult),
         Server.validate_pr_description title templates_dir description template_name
           change_analysis
         = Server.TemplateNotFound false
             ("Template '" +:+ template_name +:+ "' not found")
             (Templates.list_available_templates title templates_dir))
  /\ NoDup (Templates.list_available_templates title templates_dir)
  /\ (forall known : string,
         known ∈ Templates.list_available_templates title templates_dir
         <-> is_Some (templates_dir !! known)).
Proof.
  intros Habsent.
  assert (Hnone : Templates.get_template title templates_dir template_name = None).
  { rewrite TemplateFacts.get_template_lookup, Habsent. reflexivity. }
  split; [exact Hnone |]. split.
  - intros description change_analysis. unfold Server.validate_pr_description.
    now rewrite Hnone.
  - apply TemplateFacts.list_available_templates_spec.
Qed.

(** C8 on the name [nonexistent] and the sample directory. *)
Lemma unknown_template_reported_witness :
  Samples.templates_dir !! "nonexistent" = None
  /\ Templates.get_template Samples.title Samples.templates_dir "nonexistent" = None
  /\ (exists names,
         Server.validate_pr_description Samples.title Samples.templates_dir
           "Some description" "nonexistent" None
         = Server.TemplateNotFound false "Template 'nonexistent' not found" names
         /\ "feature" ∈ names /\ "hotfix" ∈ names /\ "release" ∈ names
         /\ length names = 5%nat).
Proof.
  assert (Habsent : Samples.templates_dir !! "nonexistent" = None)
    by (vm_compute; reflexivity).
  destruct (unknown_template_reported Samples.title Samples.templates_dir "nonexistent"
              Habsent) as (Hnone & Hpayload & _ & Hnames).
  split; [exact Habsent |]. split; [exact Hnone |].
  exists (Templates.list_available_templates Samples.title Samples.templates_dir).
  split; [apply Hpayload |].
  split; [apply Hnames; vm_compute; eexists; reflexivity |].
  split; [apply Hnames; vm_compute; eexists; reflexivity |].
  split; [apply Hnames; vm_compute; eexists; reflexivity |].
  vm_compute. reflexivity.
Defined.

(** ** The global repository configuration *)

Module ServerFacts.

Import GitTools Templates Server.

Section Frame.

Variable git : string -> list string -> CompletedProcess.
Variable resolve : string -> result string.
Variable title : string -> string.
Variable templates_dir : gmap string (string * FileRead).
Variable py_str : AnalysisResult -> string.

(** With the default path the global is left as it is. *)
Lemma analyze_default_path (target_branch : string) (max_tokens : Z) (g : Globals) :
  analyze_file_changes git resolve target_branch "." max_tokens g
  = (Analysis (get_file_changes git (git_analyzer g) target_branch max_tokens)
       (get_branch_info git (git_analyzer g))
       (get_commit_messages git (git_analyzer g) target_branch 5)
       "2025-06-14" "1.0.0", g).
Proof. reflexivity. Qed.

(** With another path that resolves, the global is replaced before
    the analysis runs. *)
Lemma analyze_other_path (target_branch repo_path resolved : string) (max_tokens : Z)
    (g : Globals) :
  repo_path <> "." ->
  resolve repo_path = Ok resolved ->
  let a := {| GitTools.repo_path := resolved |} in
  analyze_file_changes git resolve target_branch repo_path max_tokens g
  = (Analysis (get_file_changes git a target_branch max_tokens)
       (get_branch_info git a) (get_commit_messages git a target_branch 5)
       "2025-06-14" "1.0.0", {| git_analyzer := a |}).
Proof.
  intros Hne Hres. unfold analyze_file_changes, new_GitAnalyzer.
  apply String.eqb_neq in Hne. rewrite Hne, Hres. reflexivity.
Qed.

Lemma analyze_changes_only_when_asked (target_branch repo_path : string)
    (max_tokens : Z) (g : Globals) :
  snd (analyze_file_changes git resolve target_branch repo_path max_tokens g) <> g ->
  repo_path <> ".".
Proof.
  intros Hchanged ->. apply Hchanged. now rewrite analyze_default_path.
Qed.

Lemma step_frame (c : Call) (g : Globals) :
  reconfigures c = false ->
  step git resolve title templates_dir py_str c g = g.
Proof.
  destruct c as [t p m| |a t p| |d n a]; simpl; intros H; try reflexivity.
  - apply negb_false_iff, String.eqb_eq in H. subst p.
    now rewrite analyze_default_path.
  - unfold suggest_template. destruct a as [a|]; [reflexivity |].
    apply negb_false_iff, String.eqb_eq in H. subst p.
    now rewrite analyze_default_path.
Qed.

Lemma run_frame (calls : list Call) (g : Globals) :
  Forall (fun c => reconfigures c = false) calls ->
  run git resolve title templates_dir py_str calls g = g.
Proof.
  unfold run. revert g. induction calls as [|c calls IH]; intros g H; [reflexivity |].
  inversion H as [|? ? Hc Hrest]; subst. simpl.
  rewrite (step_frame c g Hc). now apply IH.
Qed.

End Frame.

End ServerFacts.

(** C10.  An invocation changes the global analyzer only if it reaches
    [analyze_file_changes] with a path other than ["."].  After a call
    with a path [P] that resolves, the global is the analyzer of [P];
    any run of invocations with the default path leaves it there, and a
    following call with the default path returns the analysis of [P]. *)
Theorem repository_configuration_frame
    (git : string -> list string -> GitTools.CompletedProcess)
    (resolve : string -> result string) (title : string -> string)
    (templates_dir : gmap string (string * Templates.FileRead))
    (py_str : Server.AnalysisResult -> string) :
  (forall (c : Server.Call) (g : Server.Globals),
      Server.step git resolve title templates_dir py_str c g <> g ->
      Server.reconfigures c = true)
  /\ (forall (target_branch repo_path : string) (max_tokens : Z) (g : Server.Globals),
         snd (Server.analyze_file_changes git resolve target_branch repo_path max_tokens g)
         <> g ->
         repo_path <> ".")
  /\ (forall (P resolved target1 target2 : string) (max1 max2 : Z)
             (between : list Server.Call) (g : Server.Globals),
         P <> "." ->
         resolve P = Ok resolved ->
         Forall (fun c => Server.reconfigures c = false) between ->
         let a := {| GitTools.repo_path := resolved |} in
         let g1 := snd (Server.analyze_file_changes git resolve target1 P max1 g) in
         let g2 := Server.run git resolve title templates_dir py_str between g1 in
         g1 = {| Server.git_analyzer := a |}
         /\ g2 = g1
         /\ Server.analyze_file_changes git resolve target2 "." max2 g2
            = (Server.Analysis
                 (GitTools.get_file_changes git a target2 max2)
                 (GitTools.get_branch_info git a)
                 (GitTools.get_commit_messages git a target2 5)
                 "2025-06-14" "1.0.0", g1)).
Proof.
  split; [|split].
  - intros c g Hchanged. destruct (Server.reconfigures c) eqn:E; [reflexivity |].
    exfalso. apply Hchanged. now apply ServerFacts.step_frame.
  - intros t p m g. apply ServerFacts.analyze_changes_only_when_asked.
  - intros P resolved t1 t2 m1 m2 between g Hne Hres Hbetween a g1 g2.
    assert (E1 : g1 = {| Server.git_analyzer := a |}).
    { subst g1. now rewrite (ServerFacts.analyze_other_path git resolve t1 P resolved m1 g). }
    assert (E2 : g2 = g1).
    { subst g2. now apply ServerFacts.run_frame. }
    split; [exact E1 |]. split; [exact E2 |].
    rewrite E2, ServerFacts.analyze_default_path, E1. reflexivity.
Qed.

(** C10 on a server started in [/srv], which is no repository: after one
    analysis of [/work/project], a status query and an analysis with the
    default path still run in [/work/project] and find its two changed
    files, where the startup directory would have given an error
    report. *)
Lemma repository_configuration_frame_witness :
  let analyze := Server.analyze_file_changes Samples.project_git Samples.resolve in
  let startup := {| Server.git_analyzer := {| GitTools.repo_path := "/srv" |} |} in
  let g1 := snd (analyze "main" "/work/project" 25000 startup) in
  let g2 := Server.run Samples.project_git Samples.resolve Samples.title
              Samples.templates_dir (fun _ => EmptyString) [Server.CallStatus] g1 in
  "/work/project" <> "."
  /\ g2 = {| Server.git_analyzer := {| GitTools.repo_path := "/work/project" |} |}
  /\ snd (analyze "main" "." 25000 g2) = g2
  /\ Server.total_files_changed_entry (fst (analyze "main" "." 25000 g2)) = 2%nat
  /\ Server.total_files_changed_entry (fst (analyze "main" "." 25000 startup)) = 0%nat.
Proof.
  cbv zeta.
  assert (Hne : "/work/project" <> ".") by discriminate.
  assert (Hbetween : Forall (fun c => Server.reconfigures c = false) [Server.CallStatus])
    by (repeat constructor).
  destruct (proj2 (proj2 (repository_configuration_frame Samples.project_git
                            Samples.resolve Samples.title Samples.templates_dir
                            (fun _ => EmptyString)))
              "/work/project" "/work/project" "main" "main" 25000 25000
              [Server.CallStatus]
              {| Server.git_analyzer := {| GitTools.repo_path := "/srv" |} |}
              Hne eq_refl Hbetween) as (E1 & E2 & E3).
  split; [exact Hne |].
  split; [rewrite E2; exact E1 |].
  split; [rewrite E3, E2; reflexivity |].
  split; [rewrite E3; vm_compute; reflexivity | vm_compute; reflexivity].
Defined.

(** * Further properties of the code *)

(** ** Truncation *)

(** Above the budget the result is a proper prefix of the lines of the
    diff, in order and unchanged, followed by the marker line; the
    marker states how many lines were left out; the emitted lines,
    newlines included, fit a budget that is not negative; the whole text
    is longer than that by the marker. *)
Theorem truncation_keeps_line_prefix (diff : string) (max_chars : Z) :
  Z.of_nat (Py.len diff) > max_chars ->
  exists emitted rest,
    Py.split Py.nl diff = emitted ++ rest /\ rest <> []
    /\ GitTools._truncate_diff diff max_chars
       = Py.join (String Py.nl EmptyString)
           (emitted ++ [GitTools.marker (Z.of_nat (length rest))])
    /\ Z.of_nat (Py.len (GitTools._truncate_diff diff max_chars))
       = Py.weight emitted + Z.of_nat (Py.len (GitTools.marker (Z.of_nat (length rest))))
    /\ (0 <= max_chars -> Py.weight emitted <= max_chars).
Proof.
  intros Hover.
  destruct (TruncateFacts.truncate_diff_over_budget diff max_chars Hover)
    as (emitted & rest & Hsplit & Hrest & Hout & _ & Hlen & Hfit).
  cbv zeta in Hout, Hlen.
  assert (Hcount : Z.of_nat (length (Py.split Py.nl diff)) - Z.of_nat (length emitted)
                   = Z.of_nat (length rest)).
  { rewrite Hsplit, length_app. lia. }
  rewrite Hcount in Hout, Hlen.
  exists emitted, rest. repeat split; assumption.
Qed.

Lemma truncation_keeps_line_prefix_witness :
  Z.of_nat (Py.len ("ab" +:+ String Py.nl "cd")) > 4
  /\ exists emitted rest,
       Py.split Py.nl ("ab" +:+ String Py.nl "cd") = emitted ++ rest
       /\ rest <> []
       /\ GitTools._truncate_diff ("ab" +:+ String Py.nl "cd") 4
          = Py.join (String Py.nl EmptyString)
              (emitted ++ [GitTools.marker (Z.of_nat (length rest))]).
Proof.
  assert (H : Z.of_nat (Py.len ("ab" +:+ String Py.nl "cd")) > 4) by (vm_compute; reflexivity).
  split; [exact H |].
  destruct (truncation_keeps_line_prefix _ _ H)
    as (emitted & rest & Hsplit & Hrest & Hout & _).
  exists emitted, rest. split; [exact Hsplit |]. split; [exact Hrest |]. exact Hout.
Defined.

(** With a negative budget (a [max_tokens] below the reserve of 2000)
    nothing of the diff is kept, not even of an empty diff: the result
    is the marker alone, counting every line. *)
Theorem truncate_diff_negative_budget (diff : string) (max_chars : Z) :
  max_chars < 0 ->
  GitTools._truncate_diff diff max_chars
  = GitTools.marker (Z.of_nat (length (Py.split Py.nl diff))).
Proof.
  intros Hneg. unfold GitTools._truncate_diff.
  destruct (Z.leb_spec (Z.of_nat (Py.len diff)) max_chars) as [H|_]; [lia |].
  pose proof (PyFacts.split_nonempty Py.nl diff) as Hne.
  destruct (Py.split Py.nl diff) as [|line rest] eqn:E; [congruence |].
  cbn [GitTools.truncate_loop].
  destruct (Z.gtb_spec (0 + (Z.of_nat (Py.len line) + 1)) max_chars) as [_|H]; [|lia].
  cbn [app length]. rewrite Z.sub_0_r. reflexivity.
Qed.

Lemma truncate_diff_negative_budget_witness :
  -1500 < 0
  /\ GitTools._truncate_diff EmptyString (500 - 2000) = GitTools.marker 1.
Proof.
  split; [lia |]. apply (truncate_diff_negative_budget EmptyString (500 - 2000)). lia.
Defined.

Module ReportCases.

Import GitTools.

(** The two ways [get_file_changes] returns: the error report of some
    exception, or the report built from the three outputs, the parsed
    listing and its summary. *)
Lemma get_file_changes_cases git self (target_branch : string) (max_tokens : Z) :
  (exists e,
      file_changes_body git self target_branch max_tokens = Raise e
      /\ get_file_changes git self target_branch max_tokens
         = {| error := Some (str_exn e);
              branch_comparison := target_branch +:+ "...HEAD";
              total_files_changed := 0; file_changes := [];
              diff_stats := EmptyString; diff_content := EmptyString;
              truncated := false; original_diff_size := None;
              change_summary := None |})
  \/ (exists listing stats full_diff changes summary,
         _run_git_command git self ["diff"; "--name-status"; target_branch +:+ "...HEAD"]
         = Ok listing
         /\ _run_git_command git self ["diff"; "--stat"; target_branch +:+ "...HEAD"]
            = Ok stats
         /\ _run_git_command git self ["diff"; target_branch +:+ "...HEAD"] = Ok full_diff
         /\ parse_changed_files (Py.split Py.nl listing) [] = Ok changes
         /\ _summarize_changes changes = Ok summary
         /\ get_file_changes git self target_branch max_tokens
            = {| error := None;
                 branch_comparison := target_branch +:+ "...HEAD";
                 total_files_changed := length changes;
                 file_changes := changes;
                 diff_stats := stats;
                 diff_content := _truncate_diff full_diff (max_tokens - 2000);
                 truncated :=
                   (Py.len (_truncate_diff full_diff (max_tokens - 2000))
                    <? Py.len full_diff)%nat;
                 original_diff_size := Some (Py.len full_diff);
                 change_summary := Some summary |}).
Proof.
  unfold get_file_changes, file_changes_body.
  destruct (_run_git_command git self
              ["diff"; "--name-status"; target_branch +:+ "...HEAD"])
    as [listing|e] eqn:E1;
    cbn [mbind result_bind]; [|left; exists e; split; reflexivity].
  destruct (_run_git_command git self
              ["diff"; "--stat"; target_branch +:+ "...HEAD"]) as [stats|e] eqn:E2;
    cbn [mbind result_bind]; [|left; exists e; split; reflexivity].
  destruct (_run_git_command git self
              ["diff"; target_branch +:+ "...HEAD"]) as [full_diff|e] eqn:E3;
    cbn [mbind result_bind]; [|left; exists e; split; reflexivity].
  destruct (parse_changed_files (Py.split Py.nl listing) []) as [changes|e] eqn:E4;
    cbn [mbind result_bind]; [|left; exists e; split; reflexivity].
  destruct (_summarize_changes changes) as [summary|e] eqn:E5;
    cbn [mbind result_bind]; [|left; exists e; split; reflexivity].
  right. exists listing, stats, full_diff, changes, summary.
  repeat split; try reflexivity; assumption.
Qed.

End ReportCases.

(** The [truncated] flag is sound: when a report says [truncated], the
    analysis succeeded, the full diff was over the budget left after the
    reserve, the text delivered is shorter than the full diff, and it
    ends with the marker. *)
Theorem truncated_flag_sound git self (target_branch : string) (max_tokens : Z) :
  let report := GitTools.get_file_changes git self target_branch max_tokens in
  GitTools.truncated report = true ->
  GitTools.error report = None
  /\ exists size,
       GitTools.original_diff_size report = Some size
       /\ Z.of_nat size > max_tokens - 2000
       /\ (Py.len (GitTools.diff_content report) < size)%nat
       /\ exists body remaining,
            GitTools.diff_content report = body +:+ GitTools.marker remaining.
Proof.
  cbv zeta.
  destruct (ReportCases.get_file_changes_cases git self target_branch max_tokens)
    as [(e & _ & ->)|(listing & stats & full_diff & changes & summary
                      & _ & _ & _ & _ & _ & ->)];
    cbn [GitTools.truncated GitTools.error GitTools.original_diff_size
         GitTools.diff_content]; [discriminate |].
  intros Hflag. apply Nat.ltb_lt in Hflag.
  split; [reflexivity |]. exists (Py.len full_diff). split; [reflexivity |].
  assert (Hover : Z.of_nat (Py.len full_diff) > max_tokens - 2000).
  { destruct (Z.leb_spec (Z.of_nat (Py.len full_diff)) (max_tokens - 2000)) as [H|H];
      [|lia].
    unfold GitTools._truncate_diff in Hflag. apply Z.leb_le in H.
    rewrite H in Hflag. lia. }
  split; [exact Hover |]. split; [exact Hflag |].
  destruct (TruncateFacts.truncate_diff_over_budget _ _ Hover)
    as (emitted & rest & _ & _ & _ & [body Hbody] & _).
  eexists. eexists. exact Hbody.
Qed.

Lemma truncated_flag_sound_witness :
  let report :=
    GitTools.get_file_changes MoreSamples.long_git Samples.here "main" 2040 in
  GitTools.truncated report = true
  /\ GitTools.original_diff_size report = Some 92%nat
  /\ GitTools.error report = None.
Proof.
  cbv zeta.
  assert (H : GitTools.truncated
                (GitTools.get_file_changes MoreSamples.long_git Samples.here "main" 2040)
              = true) by (vm_compute; reflexivity).
  split; [exact H |]. split; [vm_compute; reflexivity |].
  exact (proj1 (truncated_flag_sound MoreSamples.long_git Samples.here "main" 2040 H)).
Defined.

(** ** The name-status listing *)

Module ListingFacts.

Import Py PyFacts GitTools Derived.

Lemma all_space_app (a b : string) : all_space (a +:+ b) = all_space a && all_space b.
Proof.
  induction a as [|c a IH]; [reflexivity |].
  rewrite sapp_cons. simpl. rewrite IH. apply andb_assoc.
Qed.





(** No piece of a split has the separator in it. *)
Lemma split_pieces_free (sep : ascii) (s : string) :
  Forall (fun piece => contains (String sep EmptyString) piece = false) (split sep s).
Proof.
  induction s as [|c s IH]; [repeat constructor |].
  simpl. destruct (Ascii.eqb c sep) eqn:E.
  - constructor; [reflexivity | exact IH].
  - pose proof (split_nonempty sep s) as Hne.
    destruct (split sep s) as [|h t]; [congruence |].
    inversion IH as [|? ? Hh Ht]; subst. constructor; [|exact Ht].
    rewrite LogFacts.contains_char_cons, E, Hh. reflexivity.
Qed.

Lemma get_change_type_kind_of (status : string) :
  status <> EmptyString -> _get_change_type status = Ok (kind_of status).
Proof. destruct status; [congruence | reflexivity]. Qed.

(** The loop only appends to what it was given. *)
Lemma parse_changed_files_acc (lines : list string) :
  forall acc,
    parse_changed_files lines acc
    = out ← parse_changed_files lines []; Ok (acc ++ out).
Proof.
  induction lines as [|line rest IH]; intros acc.
  - simpl. now rewrite List.app_nil_r.
  - simpl. destruct (truthy (strip line)); [|apply IH].
    destruct (split tab line) as [|st [|fn tl]]; try apply IH.
    destruct (_get_change_type st) as [kind|e]; cbn [mbind result_bind]; [|reflexivity].
    rewrite IH. rewrite (IH [_]).
    destruct (parse_changed_files rest []); cbn [mbind result_bind]; [|reflexivity].
    now rewrite <- List.app_assoc.
Qed.

Lemma split_listing_line (e : ListingEntry) :
  printable e ->
  exists more, split tab (listing_line e) = entry_status e :: entry_path e :: more.
Proof.
  intros (_ & Hs & Hp). unfold listing_line.
  rewrite (LogFacts.split_field tab) by exact Hs.
  destruct (entry_new_path e) as [p|].
  - change (String tab p) with (String tab EmptyString +:+ p).
    rewrite (LogFacts.split_field tab) by exact Hp. eexists. reflexivity.
  - rewrite sapp_empty_r, (LogFacts.split_without_sep tab _ Hp). eexists. reflexivity.
Qed.

Lemma listing_line_visible (e : ListingEntry) :
  printable e -> truthy (strip (listing_line e)) = true.
Proof.
  intros (Hv & _ & _). rewrite LogFacts.truthy_strip. unfold listing_line.
  now rewrite all_space_app, Hv.
Qed.

End ListingFacts.



(** The listing parser reads back what the tool prints: for lines made
    of a visible, tab-free status, a tab and a tab-free path (and, for a
    rename, a tab and the new path), the result has one entry per line,
    in the order of the lines, with the status and the first path of the
    line and the kind of the status.  A rename is filed under its old
    path. *)
Theorem parse_changed_files_reads_listing (entries : list Derived.ListingEntry) :
  Forall Derived.printable entries ->
  GitTools.parse_changed_files (map Derived.listing_line entries) []
  = Ok (map Derived.change_of entries).
Proof.
  induction entries as [|e entries IH]; intros Hall; [reflexivity |].
  inversion Hall as [|? ? He Hrest]; subst.
  cbn [map GitTools.parse_changed_files].
  rewrite (ListingFacts.listing_line_visible e He).
  destruct (ListingFacts.split_listing_line e He) as [more ->].
  rewrite ListingFacts.get_change_type_kind_of.
  2:{ destruct He as (Hv & _). intros E. rewrite E in Hv. discriminate. }
  cbn [mbind result_bind]. rewrite ListingFacts.parse_changed_files_acc, (IH Hrest).
  reflexivity.
Qed.

Lemma parse_changed_files_reads_listing_witness :
  let entries :=
    [{| Derived.entry_status := "M"; Derived.entry_path := "src/a.py";
        Derived.entry_new_path := None |};
     {| Derived.entry_status := "R100"; Derived.entry_path := "old name.txt";
        Derived.entry_new_path := Some "new name.txt" |}] in
  Forall Derived.printable entries
  /\ GitTools.parse_changed_files (map Derived.listing_line entries) []
     = Ok [{| GitTools.status := "M"; GitTools.filename := "src/a.py";
              GitTools.change_type := "modified" |};
           {| GitTools.status := "R100"; GitTools.filename := "old name.txt";
              GitTools.change_type := "renamed" |}].
Proof.
  cbv zeta.
  assert (H : Forall Derived.printable
                [{| Derived.entry_status := "M"; Derived.entry_path := "src/a.py";
                    Derived.entry_new_path := None |};
                 {| Derived.entry_status := "R100"; Derived.entry_path := "old name.txt";
                    Derived.entry_new_path := Some "new name.txt" |}]).
  { repeat constructor. }
  split; [exact H |].
  rewrite (parse_changed_files_reads_listing _ H). reflexivity.
Defined.

Module ParseInvariant.

Import Py PyFacts GitTools Derived.

Lemma parse_changed_files_parsed (lines : list string) :
  forall acc out,
    Forall parsed acc ->
    parse_changed_files lines acc = Ok out ->
    Forall parsed out.
Proof.
  induction lines as [|line rest IH]; intros acc out Hacc H; simpl in H.
  - now injection H as <-.
  - destruct (truthy (strip line)); [|eapply IH; eassumption].
    pose proof (ListingFacts.split_pieces_free tab line) as Hfree.
    destruct (split tab line) as [|st [|fn tl]]; try (eapply IH; eassumption).
    destruct (_get_change_type st) as [kind|e] eqn:E; cbn [mbind result_bind] in H;
      [|discriminate H].
    eapply IH; [|exact H].
    apply Forall_app. split; [assumption |]. constructor; [|constructor].
    inversion Hfree as [|? ? Hst Htl]; subst. inversion Htl as [|? ? Hfn _]; subst.
    unfold parsed. cbn [status filename change_type].
    repeat split; try assumption.
    intros ->. discriminate E.
Qed.

(** A visible line whose first field is empty makes the loop raise,
    wherever it stands in the listing. *)
Lemma parse_changed_files_empty_status (lines : list string) :
  forall acc,
    (exists line path more,
        In line lines /\ all_space line = false
        /\ split tab line = EmptyString :: path :: more) ->
    parse_changed_files lines acc = Raise (IndexError "string index out of range").
Proof.
  induction lines as [|l rest IH]; intros acc (line & path & more & Hin & Hvis & Hsplit).
  - destruct Hin.
  - simpl. destruct Hin as [->|Hin].
    + rewrite LogFacts.truthy_strip, Hvis, Hsplit. reflexivity.
    + assert (Hrest : forall acc', parse_changed_files rest acc'
                                   = Raise (IndexError "string index out of range")).
      { intros acc'. apply IH. exists line, path, more. tauto. }
      destruct (truthy (strip l)); [|apply Hrest].
      destruct (split tab l) as [|st [|fn tl]]; try apply Hrest.
      destruct st as [|c st]; [reflexivity |].
      cbn [_get_change_type mbind result_bind]. apply Hrest.
Qed.

End ParseInvariant.

(** Every report, of the failure path or of the success path, is
    consistent: its range is the target followed by [...HEAD], its count
    is the length of its list, and every entry of the list has a status
    that is not empty, the kind of that status, and no tab in its status
    or filename. *)
Theorem report_consistent git self (target_branch : string) (max_tokens : Z) :
  let report := GitTools.get_file_changes git self target_branch max_tokens in
  GitTools.branch_comparison report = target_branch +:+ "...HEAD"
  /\ GitTools.total_files_changed report = length (GitTools.file_changes report)
  /\ Forall Derived.parsed (GitTools.file_changes report)
  /\ Forall GitTools.wf_change (GitTools.file_changes report).
Proof.
  cbv zeta.
  destruct (ReportCases.get_file_changes_cases git self target_branch max_tokens)
    as [(e & _ & ->)|(listing & stats & full_diff & changes & summary
                      & _ & _ & _ & Hparse & _ & ->)];
    cbn [GitTools.branch_comparison GitTools.total_files_changed GitTools.file_changes].
  - repeat split; constructor.
  - repeat split.
    + eapply ParseInvariant.parse_changed_files_parsed; [|exact Hparse]. constructor.
    + eapply SummaryFacts.parse_changed_files_wf; [|exact Hparse]. constructor.
Qed.

(** When the tool reports no change (all three queries succeed and the
    listing is blank), the report is a success with no file, and its
    summary is the empty one. *)
Theorem no_changes_report git self (target_branch : string) (max_tokens : Z) :
  (forall argv, In argv (GitTools.diff_commands target_branch) ->
                GitTools.returncode (git (GitTools.repo_path self) argv) = 0) ->
  Py.all_space
    (GitTools.stdout
       (git (GitTools.repo_path self)
          ["git"; "diff"; "--name-status"; target_branch +:+ "...HEAD"])) = true ->
  let report := GitTools.get_file_changes git self target_branch max_tokens in
  GitTools.error report = None
  /\ GitTools.total_files_changed report = 0%nat
  /\ GitTools.file_changes report = []
  /\ GitTools.change_summary report = Some GitTools.empty_summary.
Proof.
  intros Hok Hblank. cbv zeta.
  unfold GitTools.get_file_changes, GitTools.file_changes_body, GitTools._run_git_command.
  rewrite !Hok by (simpl; tauto). cbn [Z.eqb mbind result_bind].
  apply PyFacts.strip_empty in Hblank. rewrite Hblank.
  cbn. repeat split.
Qed.

Lemma no_changes_report_witness :
  let quiet (cwd : string) (argv : list string) :=
    {| GitTools.returncode := 0; GitTools.stdout := String Py.nl EmptyString;
       GitTools.stderr := EmptyString |} in
  GitTools.total_files_changed
    (GitTools.get_file_changes quiet Samples.here "main" 25000) = 0%nat
  /\ GitTools.error (GitTools.get_file_changes quiet Samples.here "main" 25000) = None.
Proof.
  cbv zeta.
  destruct (no_changes_report
              (fun _ _ => {| GitTools.returncode := 0;
                             GitTools.stdout := String Py.nl EmptyString;
                             GitTools.stderr := EmptyString |})
              Samples.here "main" 25000) as (He & Hn & _).
  - intros argv _. reflexivity.
  - reflexivity.
  - split; [exact Hn | exact He].
Defined.

(** A listing line that starts with a tab and is not blank fails the
    whole analysis, though the tool itself succeeded: the report is the
    error report with the message of the index fault, and no file of the
    listing is reported. *)
Theorem tab_led_line_fails_report git self (target_branch : string) (max_tokens : Z)
    (rest : string) :
  (forall argv, In argv (GitTools.diff_commands target_branch) ->
                GitTools.returncode (git (GitTools.repo_path self) argv) = 0) ->
  In (String Py.tab rest)
    (Py.split Py.nl
       (Py.strip
          (GitTools.stdout
             (git (GitTools.repo_path self)
                ["git"; "diff"; "--name-status"; target_branch +:+ "...HEAD"])))) ->
  Py.all_space rest = false ->
  let report := GitTools.get_file_changes git self target_branch max_tokens in
  GitTools.error report = Some "string index out of range"
  /\ GitTools.total_files_changed report = 0%nat
  /\ GitTools.file_changes report = [].
Proof.
  intros Hok Hin Hvis. cbv zeta.
  unfold GitTools.get_file_changes, GitTools.file_changes_body, GitTools._run_git_command.
  rewrite !Hok by (simpl; tauto). cbn [Z.eqb mbind result_bind].
  rewrite ParseInvariant.parse_changed_files_empty_status.
  - cbn. repeat split.
  - pose proof (PyFacts.split_nonempty Py.tab rest) as Hne.
    destruct (Py.split Py.tab rest) as [|path more] eqn:E; [congruence |].
    exists (String Py.tab rest), path, more. split; [exact Hin |]. split.
    + simpl. exact Hvis.
    + simpl. now rewrite E.
Qed.

Lemma tab_led_line_fails_report_witness :
  GitTools.error
    (GitTools.get_file_changes MoreSamples.tabbed_git Samples.here "main" 25000)
  = Some "string index out of range".
Proof.
  refine (proj1 (tab_led_line_fails_report MoreSamples.tabbed_git Samples.here "main"
                   25000 "b.py" _ _ _)).
  - intros argv Hin. simpl in Hin. destruct Hin as [<-|[<-|[<-|[]]]]; reflexivity.
  - right. left. reflexivity.
  - reflexivity.
Defined.

(** ** The summary, exactly *)

Module SummaryExact.

Import Py PyFacts GitTools Derived.

Lemma count_change_type_summable (kind : string) (s : Summary) :
  kind <> "file_types" -> kind <> "directories" ->
  exists s',
    count_change_type kind s = Ok s'
    /\ file_types s' = file_types s
    /\ directories s' = directories s
    /\ added s' = (added s + if String.eqb kind "added" then 1 else 0)%nat
    /\ modified s' = (modified s + if String.eqb kind "modified" then 1 else 0)%nat
    /\ deleted s' = (deleted s + if String.eqb kind "deleted" then 1 else 0)%nat
    /\ renamed s' = (renamed s + if String.eqb kind "renamed" then 1 else 0)%nat.
Proof.
  intros Hft Hdir. unfold count_change_type.
  destruct (String.eqb_spec kind "added") as [->|_];
    [eexists; split; [reflexivity |]; simpl; repeat split; lia |].
  destruct (String.eqb_spec kind "modified") as [->|_];
    [eexists; split; [reflexivity |]; simpl; repeat split; lia |].
  destruct (String.eqb_spec kind "deleted") as [->|_];
    [eexists; split; [reflexivity |]; simpl; repeat split; lia |].
  destruct (String.eqb_spec kind "renamed") as [->|_];
    [eexists; split; [reflexivity |]; simpl; repeat split; lia |].
  destruct (String.eqb_spec kind "file_types") as [->|_]; [congruence |].
  destruct (String.eqb_spec kind "directories") as [->|_]; [congruence |].
  exists s. repeat split; lia.
Qed.

Lemma kind_count_cons (kind : string) (c : FileChange) (rest : list FileChange) :
  kind_count kind (c :: rest)
  = ((if String.eqb (change_type c) kind then 1 else 0) + kind_count kind rest)%nat.
Proof.
  unfold kind_count. simpl. destruct (String.eqb (change_type c) kind); reflexivity.
Qed.

(** The loop, field by field, from any starting summary. *)
Lemma summarize_loop_exact (changes : list FileChange) :
  forall s0,
    Forall summable changes ->
    exists s,
      summarize_loop changes s0 = Ok s
      /\ added s = (added s0 + kind_count "added" changes)%nat
      /\ modified s = (modified s0 + kind_count "modified" changes)%nat
      /\ deleted s = (deleted s0 + kind_count "deleted" changes)%nat
      /\ renamed s = (renamed s0 + kind_count "renamed" changes)%nat
      /\ (forall ext,
             file_types s !! ext
             = bump (length (List.filter (has_extension ext) changes))
                 (file_types s0 !! ext))
      /\ (forall d,
             d ∈ directories s
             <-> d ∈ directories s0
                 \/ (d <> EmptyString
                     /\ exists c, In c changes /\ dirname (filename c) = d)).
Proof.
  induction changes as [|c rest IH]; intros s0 Hall.
  - exists s0. unfold kind_count. simpl. repeat split; try lia; try tauto.
    intros [H|(_ & c & [] & _)]. exact H.
  - inversion Hall as [|? ? [Hc1 Hc2] Hrest]; subst.
    destruct (count_change_type_summable (change_type c) s0 Hc1 Hc2)
      as (s1 & Hs1 & Hft & Hdir & Ha & Hm & Hd & Hr).
    simpl summarize_loop. rewrite Hs1. cbn [mbind result_bind].
    destruct (IH (track_directory (filename c) (track_extension (filename c) s1)) Hrest)
      as (s & Hs & Ha' & Hm' & Hd' & Hr' & Hext & Hdirs).
    exists s. split; [exact Hs |].
    destruct (SummaryFacts.track_directory_frame (filename c)
                (track_extension (filename c) s1)) as (Eft & Ea & Em & Ed & Er).
    destruct (SummaryFacts.track_extension_frame (filename c) s1)
      as (Edir & Ea1 & Em1 & Ed1 & Er1).
    rewrite !kind_count_cons.
    split; [rewrite Ha', Ea, Ea1, Ha; lia |].
    split; [rewrite Hm', Em, Em1, Hm; lia |].
    split; [rewrite Hd', Ed, Ed1, Hd; lia |].
    split; [rewrite Hr', Er, Er1, Hr; lia |].
    split.
    + intros ext. rewrite Hext, Eft, SummaryFacts.track_extension_entry, Hft,
        SummaryFacts.bump_bump.
      f_equal. simpl List.filter. unfold has_extension at 2.
      destruct (contains "." (filename c)
                && String.eqb (List.last (split "." (filename c)) EmptyString) ext);
        reflexivity.
    + intros d. rewrite Hdirs, SummaryFacts.track_directory_entry, Edir, Hdir. split.
      * intros [[H|[Hne Hd0]]|(Hne & c' & Hin & Hd0)].
        -- now left.
        -- right. split; [assumption |]. exists c. split; [now left | assumption].
        -- right. split; [assumption |]. exists c'. split; [now right | assumption].
      * intros [H|(Hne & c' & [<-|Hin] & Hd0)].
        -- left. now left.
        -- left. right. split; assumption.
        -- right. split; [assumption |]. exists c'. split; assumption.
Qed.

Lemma filter_length_perm {A} (f : A -> bool) (l l' : list A) :
  Permutation l l' -> length (List.filter f l) = length (List.filter f l').
Proof.
  induction 1 as [|x l l' _ IH|x y l|l l' l'' _ IH1 _ IH2]; simpl.
  - reflexivity.
  - destruct (f x); simpl; now rewrite IH.
  - destruct (f x), (f y); reflexivity.
  - now rewrite IH1.
Qed.

End SummaryExact.

(** The four counters are exact: each is the number of changes of its
    kind.  Changes of the kinds copied, type_changed and unknown are in
    no counter, so the four add up to the number of changes less those. *)
Theorem summarize_changes_counts_exact (changes : list GitTools.FileChange) :
  Forall Derived.summable changes ->
  exists s,
    GitTools._summarize_changes changes = Ok s
    /\ GitTools.added s = Derived.kind_count "added" changes
    /\ GitTools.modified s = Derived.kind_count "modified" changes
    /\ GitTools.deleted s = Derived.kind_count "deleted" changes
    /\ GitTools.renamed s = Derived.kind_count "renamed" changes
    /\ (Forall GitTools.wf_change changes ->
        (GitTools.added s + GitTools.modified s + GitTools.deleted s + GitTools.renamed s
         + Derived.kind_count "copied" changes
         + Derived.kind_count "type_changed" changes
         + Derived.kind_count "unknown" changes = length changes)%nat).
Proof.
  intros Hall.
  destruct (SummaryExact.summarize_loop_exact changes GitTools.empty_summary Hall)
    as (s & Hs & Ha & Hm & Hd & Hr & _).
  exists s. split; [exact Hs |]. simpl in Ha, Hm, Hd, Hr.
  repeat (split; [assumption |]).
  intros Hwf. rewrite Ha, Hm, Hd, Hr. clear - Hwf.
  induction changes as [|c rest IH]; [reflexivity |].
  inversion Hwf as [|? ? Hc Hrest]; subst. specialize (IH Hrest).
  rewrite !SummaryExact.kind_count_cons. simpl length.
  unfold GitTools.wf_change, GitTools.change_kinds in Hc. simpl in Hc.
  destruct Hc as [<-|[<-|[<-|[<-|[<-|[<-|[<-|[]]]]]]]]; simpl; lia.
Qed.

Lemma summarize_changes_counts_exact_witness :
  let changes :=
    [{| GitTools.status := "M"; GitTools.filename := "src/a.py";
        GitTools.change_type := "modified" |};
     {| GitTools.status := "C75"; GitTools.filename := "Makefile";
        GitTools.change_type := "copied" |};
     {| GitTools.status := "M"; GitTools.filename := "b.py";
        GitTools.change_type := "modified" |}] in
  Forall Derived.summable changes
  /\ exists s, GitTools._summarize_changes changes = Ok s
               /\ GitTools.modified s = 2%nat /\ GitTools.added s = 0%nat.
Proof.
  cbv zeta.
  assert (H : Forall Derived.summable
                [{| GitTools.status := "M"; GitTools.filename := "src/a.py";
                    GitTools.change_type := "modified" |};
                 {| GitTools.status := "C75"; GitTools.filename := "Makefile";
                    GitTools.change_type := "copied" |};
                 {| GitTools.status := "M"; GitTools.filename := "b.py";
                    GitTools.change_type := "modified" |}]).
  { repeat constructor; discriminate. }
  split; [exact H |].
  destruct (summarize_changes_counts_exact _ H) as (s & Hs & Ha & Hm & _).
  exists s. split; [exact Hs |]. split; [exact Hm | exact Ha].
Defined.

(** The summary does not depend on the order of the changes, the order
    in which the directories are listed apart: two sequences that are
    permutations of each other give the same four counters, the same
    count for every extension, and the same directories. *)
Theorem summarize_changes_order_free (changes changes' : list GitTools.FileChange) :
  Forall Derived.summable changes ->
  Permutation changes changes' ->
  exists s s',
    GitTools._summarize_changes changes = Ok s
    /\ GitTools._summarize_changes changes' = Ok s'
    /\ GitTools.added s = GitTools.added s'
    /\ GitTools.modified s = GitTools.modified s'
    /\ GitTools.deleted s = GitTools.deleted s'
    /\ GitTools.renamed s = GitTools.renamed s'
    /\ (forall ext, GitTools.file_types s !! ext = GitTools.file_types s' !! ext)
    /\ (forall d, d ∈ GitTools.directories s <-> d ∈ GitTools.directories s').
Proof.
  intros Hall Hperm.
  assert (Hall' : Forall Derived.summable changes').
  { rewrite List.Forall_forall in *. intros c Hc. apply Hall.
    eapply Permutation_in; [symmetry; exact Hperm | exact Hc]. }
  destruct (SummaryExact.summarize_loop_exact changes GitTools.empty_summary Hall)
    as (s & Hs & Ha & Hm & Hd & Hr & Hext & Hdirs).
  destruct (SummaryExact.summarize_loop_exact changes' GitTools.empty_summary Hall')
    as (s' & Hs' & Ha' & Hm' & Hd' & Hr' & Hext' & Hdirs').
  exists s, s'. split; [exact Hs |]. split; [exact Hs' |].
  unfold Derived.kind_count in *.
  split; [rewrite Ha, Ha'; f_equal; now apply SummaryExact.filter_length_perm |].
  split; [rewrite Hm, Hm'; f_equal; now apply SummaryExact.filter_length_perm |].
  split; [rewrite Hd, Hd'; f_equal; now apply SummaryExact.filter_length_perm |].
  split; [rewrite Hr, Hr'; f_equal; now apply SummaryExact.filter_length_perm |].
  split.
  - intros ext. rewrite Hext, Hext'. f_equal.
    now apply SummaryExact.filter_length_perm.
  - intros d. rewrite Hdirs, Hdirs'. split.
    + intros [H|(Hne & c & Hin & Hc)]; [now left |]. right. split; [assumption |].
      exists c. split; [|assumption]. eapply Permutation_in; eassumption.
    + intros [H|(Hne & c & Hin & Hc)]; [now left |]. right. split; [assumption |].
      exists c. split; [|assumption].
      eapply Permutation_in; [symmetry; eassumption | assumption].
Qed.

Lemma summarize_changes_order_free_witness :
  exists s s',
    GitTools._summarize_changes
      [SuggestSamples.modified_file "src/a.py"; SuggestSamples.modified_file "docs/b.md"]
    = Ok s
    /\ GitTools._summarize_changes
         [SuggestSamples.modified_file "docs/b.md"; SuggestSamples.modified_file "src/a.py"]
       = Ok s'
    /\ GitTools.modified s = GitTools.modified s'
    /\ ("docs" ∈ GitTools.directories s <-> "docs" ∈ GitTools.directories s').
Proof.
  destruct (summarize_changes_order_free
              [SuggestSamples.modified_file "src/a.py";
               SuggestSamples.modified_file "docs/b.md"]
              [SuggestSamples.modified_file "docs/b.md";
               SuggestSamples.modified_file "src/a.py"])
    as (s & s' & Hs & Hs' & _ & Hm & _ & _ & _ & Hd).
  - repeat constructor; discriminate.
  - apply perm_swap.
  - exists s, s'. split; [exact Hs |]. split; [exact Hs' |].
    split; [exact Hm | apply Hd].
Defined.

(** What a report without an error stands for: all three queries
    exited with code 0, the listing parser accepted the listing, the
    files of the report are the parsed listing and its summary is the
    summary of these files.  The summary never fails on a listing the
    parser accepted. *)
Theorem report_without_error git self (target_branch : string) (max_tokens : Z) :
  let report := GitTools.get_file_changes git self target_branch max_tokens in
  let listing :=
    Py.strip (GitTools.stdout
                (git (GitTools.repo_path self)
                   ["git"; "diff"; "--name-status"; target_branch +:+ "...HEAD"])) in
  (GitTools.error report = None ->
   (forall argv, In argv (GitTools.diff_commands target_branch) ->
                 GitTools.returncode (git (GitTools.repo_path self) argv) = 0)
   /\ exists changes summary,
        GitTools.parse_changed_files (Py.split Py.nl listing) [] = Ok changes
        /\ GitTools.file_changes report = changes
        /\ GitTools._summarize_changes changes = Ok summary
        /\ GitTools.change_summary report = Some summary)
  /\ (forall lines changes,
         GitTools.parse_changed_files lines [] = Ok changes ->
         exists summary, GitTools._summarize_changes changes = Ok summary).
Proof.
  cbv zeta. split.
  - intros Herr.
    assert (Hok : forall argv, In argv (GitTools.diff_commands target_branch) ->
                    GitTools.returncode (git (GitTools.repo_path self) argv) = 0).
    { intros argv Hin.
      destruct (Z.eq_dec (GitTools.returncode (git (GitTools.repo_path self) argv)) 0)
        as [E|E]; [exact E |].
      exfalso.
      destruct (ReportFacts.file_changes_body_failure git self target_branch max_tokens
                  (ex_intro _ argv (conj Hin E))) as [err Hraise].
      unfold GitTools.get_file_changes in Herr. rewrite Hraise in Herr.
      discriminate Herr. }
    split; [exact Hok |].
    revert Herr.
    unfold GitTools.get_file_changes, GitTools.file_changes_body,
      GitTools._run_git_command.
    rewrite !Hok by (simpl; tauto). cbn [Z.eqb mbind result_bind].
    destruct (GitTools.parse_changed_files _ _) as [changes|e];
      cbn [mbind result_bind]; [|discriminate].
    destruct (GitTools._summarize_changes changes) as [summary|e] eqn:Es;
      cbn [mbind result_bind]; [|discriminate].
    intros _. exists changes, summary. repeat split. exact Es.
  - intros lines changes Hparse.
    assert (Hwf : Forall GitTools.wf_change changes).
    { eapply SummaryFacts.parse_changed_files_wf; [|exact Hparse]. constructor. }
    destruct (SummaryFacts.summarize_loop_spec changes GitTools.empty_summary Hwf)
      as (s & Hs & _).
    exists s. exact Hs.
Qed.

Lemma report_without_error_witness :
  GitTools.error (GitTools.get_file_changes Samples.small_git Samples.here "main" 25000)
  = None
  /\ GitTools.returncode
       (Samples.small_git "/repo" ["git"; "diff"; "--stat"; "main...HEAD"]) = 0
  /\ length (GitTools.file_changes
               (GitTools.get_file_changes Samples.small_git Samples.here "main" 25000))
     = 2%nat.
Proof.
  assert (H : GitTools.error
                (GitTools.get_file_changes Samples.small_git Samples.here "main" 25000)
              = None) by reflexivity.
  destruct (proj1 (report_without_error Samples.small_git Samples.here "main" 25000) H)
    as (Hok & changes & summary & Hparse & Hfiles & _).
  split; [exact H |]. split.
  - apply Hok. right. left. reflexivity.
  - reflexivity.
Defined.

(** ** Commits and branches *)

Module CommitFacts.

Import Py PyFacts GitTools.

Lemma commit_of_line_fields (line : string) :
  commit_of_line line = []
  \/ exists hash message author date,
       commit_of_line line = [Commit hash message author date]
       /\ contains "|" hash = false /\ contains "|" message = false
       /\ contains "|" author = false /\ contains "|" date = false.
Proof.
  unfold commit_of_line. destruct (all_space line); [now left |].
  pose proof (ListingFacts.split_pieces_free "|" line) as Hfree.
  destruct (split "|" line) as [|p0 [|p1 [|p2 [|p3 tl]]]]; try now left.
  right. exists p0, p1, p2, p3.
  inversion Hfree as [|? ? H0 Hfree1]; subst.
  inversion Hfree1 as [|? ? H1 Hfree2]; subst.
  inversion Hfree2 as [|? ? H2 Hfree3]; subst.
  inversion Hfree3 as [|? ? H3 _]; subst.
  repeat split; assumption.
Qed.

End CommitFacts.

(** When the log query succeeds, the result has no error record and at
    most one commit per line of the output, and no field of a commit has
    a pipe in it.  A commit message that contains a pipe is cut at the
    pipe: a line of five or more fields gives the record of its first
    four, so that the second part of the message stands as the author
    and the author as the date. *)
Theorem get_commit_messages_fields git self (target_branch : string) (limit : Z) :
  let p := git (GitTools.repo_path self) (GitTools.log_command target_branch limit) in
  GitTools.returncode p = 0 ->
  let commits := GitTools.get_commit_messages git self target_branch limit in
  (length commits <= length (Py.split Py.nl (Py.strip (GitTools.stdout p))))%nat
  /\ Forall (fun entry =>
               exists hash message author date,
                 entry = GitTools.Commit hash message author date
                 /\ Py.contains "|" hash = false /\ Py.contains "|" message = false
                 /\ Py.contains "|" author = false /\ Py.contains "|" date = false)
       commits
  /\ (forall hash message1 message2 author rest : string,
         Py.contains "|" hash = false ->
         Py.contains "|" message1 = false ->
         Py.contains "|" message2 = false ->
         Py.contains "|" author = false ->
         Py.all_space hash = false ->
         In (hash +:+ "|" +:+ message1 +:+ "|" +:+ message2 +:+ "|" +:+ author
             +:+ "|" +:+ rest)
           (Py.split Py.nl (Py.strip (GitTools.stdout p))) ->
         In (GitTools.Commit hash message1 message2 author) commits).
Proof.
  intros p Hok commits. subst p commits.
  unfold GitTools.get_commit_messages, GitTools._run_git_command.
  change ("git" :: ["log"; target_branch +:+ "...HEAD"; "--pretty=format:%H|%s|%an|%ad";
                    "--date=short"; "-" +:+ Py.str_int limit])
    with (GitTools.log_command target_branch limit).
  rewrite Hok. cbn [Z.eqb]. rewrite LogFacts.parse_log_lines_flat_map. simpl app.
  generalize (Py.split Py.nl
                (Py.strip (GitTools.stdout
                             (git (GitTools.repo_path self)
                                (GitTools.log_command target_branch limit))))).
  intros lines. split; [|split].
  - induction lines as [|line rest IH]; [simpl; lia |].
    simpl flat_map. rewrite length_app. cbn [length].
    destruct (CommitFacts.commit_of_line_fields line)
      as [->|(h & m & a & d & -> & _)]; simpl; lia.
  - induction lines as [|line rest IH]; [constructor |].
    simpl flat_map. apply Forall_app. split; [|exact IH].
    destruct (CommitFacts.commit_of_line_fields line)
      as [->|(h & m & a & d & -> & Hh & Hm & Ha & Hd)]; [constructor |].
    constructor; [|constructor]. exists h, m, a, d. repeat split; assumption.
  - intros hash message1 message2 author rest Hh Hm1 Hm2 Ha Hvis Hin.
    apply in_flat_map. eexists. split; [exact Hin |].
    unfold GitTools.commit_of_line.
    rewrite !ListingFacts.all_space_app, Hvis. cbn [andb].
    rewrite !(LogFacts.split_field "|") by assumption.
    left. reflexivity.
Qed.

Lemma get_commit_messages_fields_witness :
  GitTools.returncode
    (Samples.small_git "/repo" (GitTools.log_command "main" 5)) = 0
  /\ (length (GitTools.get_commit_messages Samples.small_git Samples.here "main" 5)
      <= 3)%nat
  /\ In (GitTools.Commit "9c2e" "Add a" "b option" "Bob")
       (GitTools.get_commit_messages Samples.small_git Samples.here "main" 5).
Proof.
  split; [reflexivity |].
  destruct (get_commit_messages_fields Samples.small_git Samples.here "main" 5 eq_refl)
    as (Hlen & _ & Hcut).
  split; [exact Hlen |].
  apply (Hcut "9c2e" "Add a" "b option" "Bob" "2025-06-02");
    try (vm_compute; reflexivity).
  vm_compute. right. right. left. reflexivity.
Defined.

Module BranchFacts.

Lemma branch_info_failure git self :
  (GitTools.returncode (git (GitTools.repo_path self) ["git"; "branch"; "--show-current"])
   <> 0
   \/ GitTools.returncode (git (GitTools.repo_path self) ["git"; "branch"; "-r"]) <> 0) ->
  let info := GitTools.get_branch_info git self in
  GitTools.is_git_repo info = false
  /\ GitTools.current_branch info = None
  /\ GitTools.remote_branches info = []
  /\ exists err, GitTools.branch_error info = Some ("Git command failed: " +:+ err).
Proof.
  intros Hfail. cbv zeta. unfold GitTools.get_branch_info, GitTools._run_git_command.
  destruct (Z.eqb_spec
              (GitTools.returncode
                 (git (GitTools.repo_path self) ["git"; "branch"; "--show-current"])) 0)
    as [E1|E1]; cbn [mbind result_bind].
  - destruct (Z.eqb_spec
                (GitTools.returncode
                   (git (GitTools.repo_path self) ["git"; "branch"; "-r"])) 0)
      as [E2|E2]; cbn [mbind result_bind].
    + destruct Hfail; contradiction.
    + cbn. repeat split. eexists. reflexivity.
  - cbn. repeat split. eexists. reflexivity.
Qed.

End BranchFacts.

(** When either branch query exits non-zero, [get_branch_info] reports
    no repository: no current branch, no remote branch, and the message
    of the failure. *)
Theorem get_branch_info_failure git self :
  (GitTools.returncode (git (GitTools.repo_path self) ["git"; "branch"; "--show-current"])
   <> 0
   \/ GitTools.returncode (git (GitTools.repo_path self) ["git"; "branch"; "-r"]) <> 0) ->
  let info := GitTools.get_branch_info git self in
  GitTools.is_git_repo info = false
  /\ GitTools.current_branch info = None
  /\ GitTools.remote_branches info = []
  /\ exists err, GitTools.branch_error info = Some ("Git command failed: " +:+ err).
Proof. apply BranchFacts.branch_info_failure. Qed.


Lemma get_branch_info_failure_witness :
  GitTools.returncode (Samples.failing_git "/repo" ["git"; "branch"; "--show-current"]) <> 0
  /\ GitTools.is_git_repo (GitTools.get_branch_info Samples.failing_git Samples.here)
     = false.
Proof.
  split; [discriminate |].
  apply (get_branch_info_failure Samples.failing_git Samples.here). left. discriminate.
Defined.


(** ** The template store *)

Module StoreFacts.

Import Templates.

Lemma load_template_is_Some (title : string -> string) (n : string)
    (file : string * FileRead) : is_Some (load_template title n file).
Proof. destruct file as [path read]. simpl. eexists. reflexivity. Qed.

Lemma dom_get_all_templates (title : string -> string)
    (dir : gmap string (string * FileRead)) :
  dom (get_all_templates title dir) = dom dir.
Proof.
  apply set_eq. intros n. rewrite !elem_of_dom.
  apply TemplateFacts.get_template_is_Some.
Qed.

End StoreFacts.

(** A template file put into the directory is returned under its stem
    with its content verbatim, it is listed, and no other template is
    affected: the entry of a name depends on the file of that name
    only. *)
Theorem template_store_insert (title : string -> string)
    (dir : gmap string (string * Templates.FileRead)) (n path content : string) :
  let dir' := <[n := (path, Templates.ReadOk content)]> dir in
  (exists metadata,
      Templates.get_template title dir' n
      = Some (Templates.Loaded content path metadata))
  /\ (Templates.template_content <$> Templates.get_template title dir' n) = Some content
  /\ n ∈ Templates.list_available_templates title dir'
  /\ (forall m, m <> n ->
                Templates.get_template title dir' m = Templates.get_template title dir m)
  /\ (forall m, m ∈ Templates.list_available_templates title dir ->
                m ∈ Templates.list_available_templates title dir').
Proof.
  cbv zeta.
  assert (Hn : Templates.get_template title
                 (<[n := (path, Templates.ReadOk content)]> dir) n
               = Templates.load_template title n (path, Templates.ReadOk content)).
  { rewrite TemplateFacts.get_template_lookup, lookup_insert_eq. reflexivity. }
  split; [rewrite Hn; eexists; reflexivity |].
  split; [rewrite Hn; reflexivity |].
  split.
  { apply TemplateFacts.list_available_templates_spec. rewrite lookup_insert_eq.
    eexists. reflexivity. }
  split.
  - intros m Hm. rewrite !TemplateFacts.get_template_lookup, lookup_insert_ne by congruence.
    reflexivity.
  - intros m Hin. apply TemplateFacts.list_available_templates_spec.
    apply TemplateFacts.list_available_templates_spec in Hin.
    destruct (decide (n = m)) as [->|Hne].
    + rewrite lookup_insert_eq. eexists. reflexivity.
    + now rewrite lookup_insert_ne.
Qed.

(** A template file that cannot be read does not abort the listing: it
    is listed like the others, its entry carries the message of the
    failure and its path, and a description is validated against it as
    against an empty template, not rejected. *)
Theorem unreadable_template_listed (title : string -> string)
    (dir : gmap string (string * Templates.FileRead)) (n path : string) (e : exn)
    (description : string) (change_analysis : option Server.AnalysisResult) :
  dir !! n = Some (path, Templates.ReadFailed e) ->
  Templates.get_template title dir n
  = Some (Templates.Unreadable ("Could not load template: " +:+ str_exn e) path)
  /\ n ∈ Templates.list_available_templates title dir
  /\ (forall m, Templates.get_template title dir m
                = Templates.get_template title (delete n dir) m
                \/ m = n)
  /\ exists checks note,
       Server.validate_pr_description title dir description n change_analysis
       = Server.Validation n (Py.len description) EmptyString change_analysis checks note.
Proof.
  intros Hdir.
  assert (Hn : Templates.get_template title dir n
               = Some (Templates.Unreadable ("Could not load template: " +:+ str_exn e)
                         path)).
  { rewrite TemplateFacts.get_template_lookup, Hdir. reflexivity. }
  split; [exact Hn |]. split.
  { apply TemplateFacts.list_available_templates_spec. rewrite Hdir. eexists. reflexivity. }
  split.
  - intros m. destruct (decide (m = n)) as [->|Hne]; [now right |]. left.
    rewrite !TemplateFacts.get_template_lookup, lookup_delete_ne by congruence.
    reflexivity.
  - unfold Server.validate_pr_description. rewrite Hn.
    eexists. eexists. reflexivity.
Qed.

Lemma unreadable_template_listed_witness :
  Samples.templates_dir !! "hotfix"
  = Some ("templates/hotfix.md", Templates.ReadFailed (Exception "Permission denied"))
  /\ Templates.get_template Samples.title Samples.templates_dir "hotfix"
     = Some (Templates.Unreadable "Could not load template: Permission denied"
               "templates/hotfix.md").
Proof.
  assert (H : Samples.templates_dir !! "hotfix"
              = Some ("templates/hotfix.md",
                      Templates.ReadFailed (Exception "Permission denied")))
    by (vm_compute; reflexivity).
  split; [exact H |].
  exact (proj1 (unreadable_template_listed Samples.title Samples.templates_dir "hotfix"
                  "templates/hotfix.md" (Exception "Permission denied")
                  EmptyString None H)).
Defined.

(** The metadata of a readable template: for a name outside the four
    conventional ones it is generated from the name, with an empty
    suitability list; for the four it is the curated record, whatever
    the title function does. *)
Theorem template_metadata_choice (title : string -> string)
    (dir : gmap string (string * Templates.FileRead)) (n path content : string) :
  dir !! n = Some (path, Templates.ReadOk content) ->
  exists metadata,
    Templates.get_template title dir n = Some (Templates.Loaded content path metadata)
    /\ (~ In n ["feature"; "bugfix"; "hotfix"; "docs"] ->
        metadata = {| Templates.name := title n;
                      Templates.description := "Template for " +:+ n;
                      Templates.suitable_for := [] |})
    /\ (In n ["feature"; "bugfix"; "hotfix"; "docs"] ->
        In (n, metadata) Templates.template_metadata
        /\ length (Templates.suitable_for metadata) = 4%nat).
Proof.
  intros Hdir. eexists. split.
  { rewrite TemplateFacts.get_template_lookup, Hdir. reflexivity. }
  unfold Templates.template_metadata, Templates.metadata_get. split.
  - intros Hnot.
    repeat match goal with
           | |- context [String.eqb ?k n] =>
               destruct (String.eqb_spec k n) as [<-|_];
               [exfalso; apply Hnot; simpl; tauto |]
           end.
    reflexivity.
  - intros Hin. simpl in Hin.
    destruct Hin as [<-|[<-|[<-|[<-|[]]]]]; simpl; split; tauto.
Qed.

Lemma template_metadata_choice_witness :
  exists metadata,
    Templates.get_template Samples.title Samples.templates_dir "release"
    = Some (Templates.Loaded "## Release" "templates/release.md" metadata)
    /\ Templates.suitable_for metadata = [].
Proof.
  assert (H : Samples.templates_dir !! "release"
              = Some ("templates/release.md", Templates.ReadOk "## Release"))
    by (vm_compute; reflexivity).
  destruct (template_metadata_choice Samples.title Samples.templates_dir "release"
              "templates/release.md" "## Release" H) as (metadata & Hget & Hgen & _).
  exists metadata. split; [exact Hget |].
  rewrite Hgen; [reflexivity |].
  simpl. intros Hin. repeat (destruct Hin as [Hin|Hin]; [discriminate Hin |]). exact Hin.
Defined.

(** The payload of [get_pr_templates] is consistent: the count is the
    number of files of the directory and the length of the list of
    names, which has no duplicate, and the names are exactly the keys of
    the map of templates. *)
Theorem get_pr_templates_consistent (title : string -> string)
    (dir : gmap string (string * Templates.FileRead)) :
  let r := Server.get_pr_templates title dir in
  Server.total_templates r = size dir
  /\ Server.total_templates r = length (Server.available_templates r)
  /\ NoDup (Server.available_templates r)
  /\ (forall n, n ∈ Server.available_templates r <-> is_Some (Server.templates r !! n))
  /\ (forall n, is_Some (Server.templates r !! n) <-> is_Some (dir !! n)).
Proof.
  cbv zeta. unfold Server.get_pr_templates.
  cbn [Server.total_templates Server.available_templates Server.templates].
  split.
  { rewrite <- !size_dom, StoreFacts.dom_get_all_templates. reflexivity. }
  split.
  { rewrite length_fmap, length_map_to_list. reflexivity. }
  pose proof (TemplateFacts.list_available_templates_spec title dir) as [Hnd Hmem].
  unfold Templates.list_available_templates in Hnd, Hmem.
  split; [exact Hnd |]. split.
  - intros n. rewrite Hmem. symmetry. apply TemplateFacts.get_template_is_Some.
  - intros n. apply TemplateFacts.get_template_is_Some.
Qed.

(** ** The classification pass and the ranking *)

Module BucketFacts.

Import Py Templates Derived.

Lemma classify_loop_counts (changes : list GitTools.FileChange) :
  forall b,
    let b' := classify_loop changes b in
    doc_files b' = (doc_files b + length (List.filter is_doc changes))%nat
    /\ test_files b' = (test_files b + length (List.filter is_test changes))%nat
    /\ config_files b' = (config_files b + length (List.filter is_config changes))%nat
    /\ code_files b' = (code_files b + length (List.filter is_code changes))%nat.
Proof.
  induction changes as [|c rest IH]; intros b; cbv zeta.
  - simpl. repeat split; lia.
  - cbn [classify_loop]. destruct (IH (classify (GitTools.filename c) b))
      as (Hd & Ht & Hc & Hk).
    rewrite Hd, Ht, Hc, Hk. cbn [List.filter].
    unfold is_code, is_config, is_test, is_doc, classify. cbv zeta.
    destruct (any_in doc_markers (lower (GitTools.filename c)));
      destruct (any_in test_markers (lower (GitTools.filename c)));
      destruct (any_in config_markers (lower (GitTools.filename c)));
      cbn [negb andb doc_files test_files config_files code_files length];
      repeat split; lia.
Qed.

Lemma buckets_disjoint (c : GitTools.FileChange) :
  ((if is_doc c then 1 else 0) + (if is_test c then 1 else 0)
   + (if is_config c then 1 else 0) + (if is_code c then 1 else 0) = 1)%nat.
Proof.
  unfold is_code, is_config, is_test.
  destruct (is_doc c), (any_in test_markers _), (any_in config_markers _); reflexivity.
Qed.

Lemma hotfix_has_fix (text : string) :
  contains "hotfix" text = true -> contains "fix" text = true.
Proof.
  intros H. apply PyFacts.contains_iff in H as (pre & post & ->).
  apply PyFacts.contains_iff. exists (pre +:+ "hot"), post.
  now rewrite PyFacts.sapp_assoc.
Qed.

End BucketFacts.

(** The classification pass puts every file in exactly one of the four
    buckets, by precedence: a documentation marker wins over a test
    marker, a test marker over a configuration marker, and a file with
    no marker is code.  The four counts add up to the number of files. *)
Theorem classification_partitions (changes : list GitTools.FileChange) :
  let b := Templates.classify_loop changes
             {| Templates.doc_files := 0; Templates.code_files := 0;
                Templates.config_files := 0; Templates.test_files := 0 |} in
  Templates.doc_files b = length (List.filter Derived.is_doc changes)
  /\ Templates.test_files b = length (List.filter Derived.is_test changes)
  /\ Templates.config_files b = length (List.filter Derived.is_config changes)
  /\ Templates.code_files b = length (List.filter Derived.is_code changes)
  /\ (Templates.doc_files b + Templates.test_files b + Templates.config_files b
      + Templates.code_files b = length changes)%nat.
Proof.
  cbv zeta.
  destruct (BucketFacts.classify_loop_counts changes
              {| Templates.doc_files := 0; Templates.code_files := 0;
                 Templates.config_files := 0; Templates.test_files := 0 |})
    as (Hd & Ht & Hc & Hk).
  cbn [Templates.doc_files Templates.test_files Templates.config_files
       Templates.code_files] in Hd, Ht, Hc, Hk.
  rewrite Hd, Ht, Hc, Hk. repeat (split; [lia |]).
  clear. induction changes as [|c rest IH]; [reflexivity |].
  pose proof (BucketFacts.buckets_disjoint c) as Hone.
  cbn [List.filter length] in *.
  destruct (Derived.is_doc c), (Derived.is_test c), (Derived.is_config c),
    (Derived.is_code c); cbn [length] in *; lia.
Qed.

(** The suggestion always names one primary template, one of the four
    conventional names; the secondary names are among the four too and
    never repeat the primary; the confidence is low; and the input comes
    back whole in [analysis_data]. *)
Theorem suggestions_in_range (Dict : Type)
    (file_changes_of : Dict -> list GitTools.FileChange) (py_str : Dict -> string)
    (ca : Dict) :
  let s := Templates.get_template_suggestions file_changes_of py_str ca in
  (exists p, Templates.primary_suggestions s = [p]
             /\ In p Derived.suggested_names
             /\ ~ In p (Templates.secondary_suggestions s))
  /\ (forall q, In q (Templates.secondary_suggestions s) -> In q Derived.suggested_names)
  /\ Templates.confidence s = "low"
  /\ Templates.analysis_data s = ca.
Proof.
  cbv zeta.
  pose proof (SuggestFacts.suggestions_ranked file_changes_of py_str ca) as Hrank.
  cbv zeta in Hrank.
  assert (Hfixed :
    Templates.confidence (Templates.get_template_suggestions file_changes_of py_str ca)
    = "low"
    /\ Templates.analysis_data
         (Templates.get_template_suggestions file_changes_of py_str ca) = ca).
  { unfold Templates.get_template_suggestions.
    destruct (length (file_changes_of ca) =? 0)%nat; [split; reflexivity |].
    destruct (_ <? _)%nat; [split; reflexivity |].
    destruct (Py.any_in ["fix"; "bug"; "error"; "issue"] _); [split; reflexivity |].
    destruct (Py.any_in ["critical"; "urgent"; "hotfix"; "production"] _);
      split; reflexivity. }
  assert (Hcases :
    exists p secondary,
      Templates.primary_suggestions
        (Templates.get_template_suggestions file_changes_of py_str ca) = [p]
      /\ Templates.secondary_suggestions
           (Templates.get_template_suggestions file_changes_of py_str ca) = secondary
      /\ In (p, secondary)
           [("feature", []); ("docs", ["feature"]); ("bugfix", ["feature"]);
            ("hotfix", ["bugfix"]); ("feature", ["docs"; "bugfix"])]).
  { destruct (length (file_changes_of ca) =? 0)%nat;
      [injection Hrank as Hp Hs; do 2 eexists;
       split; [exact Hp |]; split; [exact Hs |]; simpl; tauto |].
    destruct (_ <? _)%nat;
      [injection Hrank as Hp Hs; do 2 eexists;
       split; [exact Hp |]; split; [exact Hs |]; simpl; tauto |].
    destruct (Py.any_in ["fix"; "bug"; "error"; "issue"] _);
      [injection Hrank as Hp Hs; do 2 eexists;
       split; [exact Hp |]; split; [exact Hs |]; simpl; tauto |].
    destruct (Py.any_in ["critical"; "urgent"; "hotfix"; "production"] _);
      injection Hrank as Hp Hs; do 2 eexists;
      (split; [exact Hp |]); (split; [exact Hs |]); simpl; tauto. }
  destruct Hcases as (p & secondary & -> & -> & Hin).
  split; [|split; [|exact Hfixed]].
  - exists p. split; [reflexivity |]. unfold Derived.suggested_names.
    simpl in Hin.
    destruct Hin as [E|[E|[E|[E|[E|[]]]]]]; injection E as <- <-;
      (split; [simpl; tauto |]); simpl; intros H;
      repeat (destruct H as [H|H]; [discriminate H |]); exact H.
  - intros q Hq. unfold Derived.suggested_names. simpl in Hin.
    destruct Hin as [E|[E|[E|[E|[E|[]]]]]]; injection E as <- <-;
      simpl in Hq |- *;
      repeat (destruct Hq as [<-|Hq]; [tauto |]); destruct Hq.
Qed.

(** The hotfix template is never chosen for the word hotfix: when the
    primary suggestion is hotfix, the lowercased rendering contains
    critical, urgent or production, and it contains neither fix nor,
    therefore, hotfix. *)
Theorem hotfix_not_by_name (Dict : Type)
    (file_changes_of : Dict -> list GitTools.FileChange) (py_str : Dict -> string)
    (ca : Dict) :
  let s := Templates.get_template_suggestions file_changes_of py_str ca in
  let text := Py.lower (py_str ca) in
  Templates.primary_suggestions s = ["hotfix"] ->
  Py.contains "hotfix" text = false
  /\ Py.contains "fix" text = false
  /\ (Py.contains "critical" text = true \/ Py.contains "urgent" text = true
      \/ Py.contains "production" text = true)
  /\ file_changes_of ca <> [].
Proof.
  cbv zeta. intros Hprim.
  pose proof (SuggestFacts.suggestions_ranked file_changes_of py_str ca) as Hrank.
  cbv zeta in Hrank. rewrite Hprim in Hrank.
  destruct (length (file_changes_of ca) =? 0)%nat eqn:Elen; [discriminate Hrank |].
  destruct (_ <? _)%nat; [discriminate Hrank |].
  destruct (Py.any_in ["fix"; "bug"; "error"; "issue"] _) eqn:Efix; [discriminate Hrank |].
  destruct (Py.any_in ["critical"; "urgent"; "hotfix"; "production"] _) eqn:Ehot;
    [|discriminate Hrank].
  unfold Py.any_in in Efix, Ehot. cbn [existsb] in Efix, Ehot.
  apply orb_false_iff in Efix as [Efix _].
  assert (Hno : Py.contains "hotfix" (Py.lower (py_str ca)) = false).
  { apply not_true_is_false. intros H. apply BucketFacts.hotfix_has_fix in H. congruence. }
  split; [exact Hno |]. split; [exact Efix |]. split.
  - rewrite Hno in Ehot. rewrite !orb_true_iff in Ehot.
    destruct Ehot as [H|[H|[H|[H|H]]]]; try discriminate H; tauto.
  - intros E. rewrite E in Elen. discriminate Elen.
Qed.

Lemma hotfix_not_by_name_witness :
  let s := Templates.get_template_suggestions (fun ca => ca) SuggestSamples.render
             [SuggestSamples.modified_file "src/production.py"] in
  Templates.primary_suggestions s = ["hotfix"]
  /\ Py.contains "hotfix" (Py.lower "src/production.py") = false.
Proof.
  cbv zeta.
  assert (H : Templates.primary_suggestions
                (Templates.get_template_suggestions (fun ca => ca) SuggestSamples.render
                   [SuggestSamples.modified_file "src/production.py"]) = ["hotfix"])
    by reflexivity.
  split; [exact H |].
  exact (proj1 (hotfix_not_by_name _ (fun ca => ca) SuggestSamples.render
                  [SuggestSamples.modified_file "src/production.py"] H)).
Defined.

(** ** The tools of the server *)

Module ToolFacts.

Import Py PyFacts GitTools Templates Server Derived.

Section World.

Variable git : string -> list string -> CompletedProcess.
Variable resolve : string -> result string.
Variable title : string -> string.
Variable templates_dir : gmap string (string * FileRead).
Variable py_str : AnalysisResult -> string.

(** What one invocation does to the global: nothing, or it replaces it
    by the analyzer of the path it asked for. *)
Lemma step_cases (c : Call) (g : Globals) :
  step git resolve title templates_dir py_str c g = g
  \/ (reconfigures c = true
      /\ exists resolved,
           resolve (requested_path c) = Ok resolved
           /\ step git resolve title templates_dir py_str c g
              = {| git_analyzer := {| GitTools.repo_path := resolved |} |}).
Proof.
  assert (Hanalyze : forall t p m,
             snd (analyze_file_changes git resolve t p m g) = g
             \/ (negb (String.eqb p ".") = true
                 /\ exists resolved,
                      resolve p = Ok resolved
                      /\ snd (analyze_file_changes git resolve t p m g)
                         = {| git_analyzer := {| GitTools.repo_path := resolved |} |})).
  { intros t p m. unfold analyze_file_changes, new_GitAnalyzer.
    destruct (String.eqb p "."); cbn [negb]; [now left |].
    destruct (resolve p) as [resolved|e]; cbn [mbind result_bind]; [|now left].
    right. split; [reflexivity |]. exists resolved. split; reflexivity. }
  destruct c as [t p m| |a t p| |d n a]; cbn [step reconfigures requested_path];
    try (now left).
  - apply Hanalyze.
  - unfold suggest_template. destruct a as [a|]; [now left |].
    destruct (Hanalyze t p 25000) as [H|(Hre & resolved & Hres & H)].
    + left. destruct (analyze_file_changes git resolve t p 25000 g). exact H.
    + right. split; [exact Hre |]. exists resolved. split; [exact Hres |].
      destruct (analyze_file_changes git resolve t p 25000 g). exact H.
Qed.

Lemma contains_visible (needle text : string) :
  all_space needle = false -> contains needle text = true ->
  all_space text = false /\ (len needle <= len text)%nat.
Proof.
  intros Hvis H. apply contains_iff in H as (pre & post & ->).
  rewrite !ListingFacts.all_space_app, Hvis, andb_false_r. split; [reflexivity |].
  rewrite !len_app. lia.
Qed.

End World.

End ToolFacts.

(** A path that cannot be resolved does not clobber the configuration:
    the call returns the failure payload of the tool, with the message
    of the exception and the arguments of the call, and the global
    analyzer stays the one it was. *)
Theorem analyze_unresolvable_path
    (git : string -> list string -> GitTools.CompletedProcess)
    (resolve : string -> result string) (target_branch repo_path : string)
    (max_tokens : Z) (g : Server.Globals) (e : exn) :
  repo_path <> "." ->
  resolve repo_path = Raise e ->
  Server.analyze_file_changes git resolve target_branch repo_path max_tokens g
  = (Server.AnalysisFailed ("Failed to analyze file changes: " +:+ str_exn e)
       target_branch repo_path 0 [] EmptyString EmptyString false, g).
Proof.
  intros Hne Hres. unfold Server.analyze_file_changes, Server.new_GitAnalyzer.
  apply String.eqb_neq in Hne. rewrite Hne, Hres. reflexivity.
Qed.

Lemma analyze_unresolvable_path_witness :
  let g := {| Server.git_analyzer := {| GitTools.repo_path := "/srv" |} |} in
  EmptyString <> "."
  /\ snd (Server.analyze_file_changes Samples.small_git MoreSamples.strict_resolve
            "main" EmptyString 25000 g) = g.
Proof.
  cbv zeta. split; [discriminate |].
  rewrite (analyze_unresolvable_path Samples.small_git MoreSamples.strict_resolve "main"
             EmptyString 25000 _ (Exception "empty path")); [reflexivity | discriminate |
             reflexivity].
Defined.

(** Where the configuration comes from: after any run of invocations the
    global analyzer is the one the run started with, or the analyzer of
    a path that one invocation of the run asked for and that resolved. *)
Theorem configuration_provenance
    (git : string -> list string -> GitTools.CompletedProcess)
    (resolve : string -> result string) (title : string -> string)
    (templates_dir : gmap string (string * Templates.FileRead))
    (py_str : Server.AnalysisResult -> string)
    (calls : list Server.Call) (g : Server.Globals) :
  let g' := Server.run git resolve title templates_dir py_str calls g in
  g' = g
  \/ exists c resolved,
       In c calls /\ Server.reconfigures c = true
       /\ resolve (Derived.requested_path c) = Ok resolved
       /\ g' = {| Server.git_analyzer := {| GitTools.repo_path := resolved |} |}.
Proof.
  cbv zeta. unfold Server.run. revert g.
  induction calls as [|c calls IH]; intros g; [now left |].
  cbn [fold_left].
  destruct (IH (Server.step git resolve title templates_dir py_str c g))
    as [E|(c' & resolved & Hin & Hre & Hres & E)].
  - rewrite E.
    destruct (ToolFacts.step_cases git resolve title templates_dir py_str c g)
      as [Hsame|(Hre & resolved & Hres & Hstep)].
    + now left.
    + right. exists c, resolved. repeat split; try assumption. now left.
  - right. exists c', resolved. repeat split; try assumption. now right.
Qed.

(** On a directory that is no repository (every invocation of the tool
    exits non-zero) the analysis tool does not use its own failure
    payload: it returns the ordinary payload, in which the report is the
    error report, the branch information says no repository, and the
    commits are the one error record. *)
Theorem analyze_outside_repository
    (git : string -> list string -> GitTools.CompletedProcess)
    (resolve : string -> result string) (target_branch : string) (max_tokens : Z)
    (g : Server.Globals) :
  (forall argv, GitTools.returncode
                  (git (GitTools.repo_path (Server.git_analyzer g)) argv) <> 0) ->
  exists report info err,
    Server.analyze_file_changes git resolve target_branch "." max_tokens g
    = (Server.Analysis report info [GitTools.CommitError err] "2025-06-14" "1.0.0", g)
    /\ (exists msg, GitTools.error report = Some msg /\ msg <> EmptyString)
    /\ GitTools.file_changes report = []
    /\ GitTools.is_git_repo info = false
    /\ GitTools.current_branch info = None.
Proof.
  intros Hfail. rewrite ServerFacts.analyze_default_path.
  eexists. eexists. eexists. split.
  - f_equal. f_equal.
    unfold GitTools.get_commit_messages.
    rewrite ReportFacts.run_git_failure by apply Hfail. reflexivity.
  - unfold GitTools.get_file_changes.
    destruct (ReportFacts.file_changes_body_failure git (Server.git_analyzer g)
                target_branch max_tokens) as [err ->].
    { eexists. split; [left; reflexivity | apply Hfail]. }
    destruct (BranchFacts.branch_info_failure git (Server.git_analyzer g))
      as (Hrepo & Hcur & _).
    { left. apply Hfail. }
    repeat split; try assumption.
    eexists. split; [reflexivity | discriminate].
Qed.

Lemma analyze_outside_repository_witness :
  exists report info err,
    Server.analyze_file_changes Samples.failing_git Samples.resolve "main" "." 25000
      {| Server.git_analyzer := Samples.here |}
    = (Server.Analysis report info [GitTools.CommitError err] "2025-06-14" "1.0.0",
       {| Server.git_analyzer := Samples.here |})
    /\ GitTools.is_git_repo info = false.
Proof.
  destruct (analyze_outside_repository Samples.failing_git Samples.resolve "main" 25000
              {| Server.git_analyzer := Samples.here |})
    as (report & info & err & Heq & _ & _ & Hrepo & _).
  - intros argv. discriminate.
  - exists report, info, err. split; [exact Heq | exact Hrepo].
Defined.

(** When the analysis it runs itself fails on the tool, the suggestion
    tool falls back to the default: it suggests feature alone, reports
    no file, no diff and no summary, and still delivers the catalogue of
    templates.  The global analyzer is left as the analysis sets it: the
    one it was for the path ["."], the analyzer of the requested path
    otherwise. *)
Theorem suggest_outside_repository
    (git : string -> list string -> GitTools.CompletedProcess)
    (resolve : string -> result string) (title : string -> string)
    (templates_dir : gmap string (string * Templates.FileRead))
    (py_str : Server.AnalysisResult -> string)
    (target_branch repo_path : string) (g : Server.Globals)
    (used : GitTools.GitAnalyzer) :
  Derived.analyzer_used resolve repo_path g = Some used ->
  (exists argv, In argv (GitTools.diff_commands target_branch)
                /\ GitTools.returncode (git (GitTools.repo_path used) argv) <> 0) ->
  let out := Server.suggest_template git resolve title templates_dir py_str None
               target_branch repo_path g in
  snd out = {| Server.git_analyzer := used |}
  /\ (repo_path = "." -> snd out = g)
  /\ Templates.primary_suggestions (Server.suggested_templates (fst out)) = ["feature"]
  /\ Templates.secondary_suggestions (Server.suggested_templates (fst out)) = []
  /\ Server.files_changed (Server.analysis_metadata (fst out)) = 0%nat
  /\ Server.change_types (Server.analysis_metadata (fst out)) = None
  /\ Server.has_diff_content (Server.analysis_metadata (fst out)) = false
  /\ Server.diff_truncated (Server.analysis_metadata (fst out)) = false
  /\ Server.suggest_available_templates (fst out)
     = Templates.get_all_templates title templates_dir.
Proof.
  intros Hused Hfail. cbv zeta.
  assert (Hanalyze :
    Server.analyze_file_changes git resolve target_branch repo_path 25000 g
    = (Server.Analysis (GitTools.get_file_changes git used target_branch 25000)
         (GitTools.get_branch_info git used)
         (GitTools.get_commit_messages git used target_branch 5)
         "2025-06-14" "1.0.0", {| Server.git_analyzer := used |})
    /\ (repo_path = "." -> {| Server.git_analyzer := used |} = g)).
  { unfold Derived.analyzer_used in Hused.
    destruct (String.eqb_spec repo_path ".") as [->|Hne].
    - injection Hused as <-. rewrite ServerFacts.analyze_default_path.
      destruct g. split; reflexivity.
    - destruct (resolve repo_path) as [resolved|e] eqn:Hres; [|discriminate Hused].
      injection Hused as <-.
      rewrite (ServerFacts.analyze_other_path git resolve target_branch repo_path
                 resolved 25000 g Hne Hres).
      split; [reflexivity | intros E; contradiction]. }
  destruct Hanalyze as [Hanalyze Hsame].
  unfold Server.suggest_template. rewrite Hanalyze.
  unfold GitTools.get_file_changes.
  destruct (ReportFacts.file_changes_body_failure git used target_branch 25000 Hfail)
    as [err ->].
  cbn. repeat split. exact Hsame.
Qed.

Lemma suggest_outside_repository_witness :
  let out := Server.suggest_template Samples.failing_git Samples.resolve Samples.title
               Samples.templates_dir (fun _ => EmptyString) None "main" "/elsewhere"
               {| Server.git_analyzer := Samples.here |} in
  Derived.analyzer_used Samples.resolve "/elsewhere"
    {| Server.git_analyzer := Samples.here |}
  = Some {| GitTools.repo_path := "/elsewhere" |}
  /\ Templates.primary_suggestions (Server.suggested_templates (fst out)) = ["feature"]
  /\ snd out = {| Server.git_analyzer := {| GitTools.repo_path := "/elsewhere" |} |}.
Proof.
  cbv zeta.
  assert (Hused : Derived.analyzer_used Samples.resolve "/elsewhere"
                    {| Server.git_analyzer := Samples.here |}
                  = Some {| GitTools.repo_path := "/elsewhere" |}) by reflexivity.
  destruct (suggest_outside_repository Samples.failing_git Samples.resolve
              Samples.title Samples.templates_dir (fun _ => EmptyString)
              "main" "/elsewhere" {| Server.git_analyzer := Samples.here |} _ Hused)
    as (Hg & _ & Hp & _).
  - eexists. split; [left; reflexivity | discriminate].
  - split; [exact Hused |]. split; [exact Hp | exact Hg].
Defined.

(** The status tool says success whatever the tool did: outside a
    repository the payload still has the status success, and the failure
    shows only in the branch information, which says no repository and
    carries the message. *)
Theorem git_status_outside_repository
    (git : string -> list string -> GitTools.CompletedProcess) (g : Server.Globals) :
  (GitTools.returncode
     (git (GitTools.repo_path (Server.git_analyzer g)) ["git"; "branch"; "--show-current"])
   <> 0
   \/ GitTools.returncode
        (git (GitTools.repo_path (Server.git_analyzer g)) ["git"; "branch"; "-r"]) <> 0) ->
  let payload := Server.get_git_status git g in
  Server.status_field payload = "success"
  /\ GitTools.is_git_repo (Server.status_branch_info payload) = false
  /\ GitTools.current_branch (Server.status_branch_info payload) = None
  /\ exists err,
       GitTools.branch_error (Server.status_branch_info payload)
       = Some ("Git command failed: " +:+ err).
Proof.
  intros Hfail. cbv zeta. unfold Server.get_git_status.
  cbn [Server.status_field Server.status_branch_info].
  destruct (BranchFacts.branch_info_failure git (Server.git_analyzer g) Hfail)
    as (Hrepo & Hcur & _ & Herr).
  repeat split; assumption.
Qed.

Lemma git_status_outside_repository_witness :
  Server.status_field
    (Server.get_git_status Samples.failing_git {| Server.git_analyzer := Samples.here |})
  = "success"
  /\ GitTools.is_git_repo
       (Server.status_branch_info
          (Server.get_git_status Samples.failing_git
             {| Server.git_analyzer := Samples.here |})) = false.
Proof.
  destruct (git_status_outside_repository Samples.failing_git
              {| Server.git_analyzer := Samples.here |}) as (Hs & Hr & _).
  - left. discriminate.
  - split; [exact Hs | exact Hr].
Defined.

(** How the basic checks relate: a description with a checklist marker
    has a description and at least five characters; a description of
    white space only has none, whatever its length, so it can pass the
    length check and fail the description check. *)
Theorem checklist_implies_description (title : string -> string)
    (templates_dir : gmap string (string * Templates.FileRead))
    (description template_name : string) (change_analysis : option Server.AnalysisResult)
    (template : Templates.Template) :
  Templates.get_template title templates_dir template_name = Some template ->
  exists checks note,
    Server.validate_pr_description title templates_dir description template_name
      change_analysis
    = Server.Validation template_name (Py.len description)
        (Templates.template_content template) change_analysis checks note
    /\ (Server.contains_checklist checks = true ->
        Server.has_description checks = true /\ (5 <= Py.len description)%nat)
    /\ (Py.all_space description = true ->
        Server.has_description checks = false
        /\ Server.contains_checklist checks = false
        /\ Server.reasonable_length checks
           = ((10 <? Py.len description)%nat && (Py.len description <? 5000)%nat)).
Proof.
  intros Hfound. unfold Server.validate_pr_description. rewrite Hfound.
  eexists. eexists. split; [reflexivity |].
  cbn [Server.has_description Server.reasonable_length Server.contains_checklist].
  assert (Hmark : Py.contains "- [ ]" description || Py.contains "- [x]" description = true ->
                  Py.all_space description = false /\ (5 <= Py.len description)%nat).
  { intros H. apply orb_true_iff in H as [H|H];
      apply ToolFacts.contains_visible in H; try reflexivity; exact H. }
  assert (Hdesc : Py.all_space description = false ->
                  (0 <? Py.len (Py.strip description))%nat = true).
  { intros Hvis. apply Nat.ltb_lt.
    destruct (Py.strip description) eqn:E; [|unfold Py.len; simpl; lia].
    apply PyFacts.strip_empty in E. congruence. }
  split.
  - intros H. destruct (Hmark H) as [Hvis Hlen]. split; [now apply Hdesc | exact Hlen].
  - intros Hblank. split; [|split; [|reflexivity]].
    + apply PyFacts.strip_empty in Hblank. now rewrite Hblank.
    + apply not_true_is_false. intros H. destruct (Hmark H) as [Hvis _]. congruence.
Qed.

Lemma checklist_implies_description_witness :
  exists checks note,
    Server.validate_pr_description Samples.title Samples.templates_dir
      "             " "feature" None
    = Server.Validation "feature" 13 "## Feature" None checks note
    /\ Server.has_description checks = false
    /\ Server.reasonable_length checks = true.
Proof.
  assert (Hfound : Templates.get_template Samples.title Samples.templates_dir "feature"
                   = Some (Templates.Loaded "## Feature" "templates/feature.md"
                             (Templates.metadata_get Templates.template_metadata "feature"
                                {| Templates.name := "feature";
                                   Templates.description := "Template for feature";
                                   Templates.suitable_for := [] |})))
    by (vm_compute; reflexivity).
  destruct (checklist_implies_description Samples.title Samples.templates_dir
              "             " "feature" None _ Hfound)
    as (checks & note & Heq & _ & Hblank).
  exists checks, note. split; [exact Heq |].
  destruct (Hblank eq_refl) as (Hd & _ & Hl).
  split; [exact Hd | rewrite Hl; reflexivity].
Defined.
